(** * Crop-recommendation agent: dialogue core ([agent_core.py])

    A shallow embedding of the [Agent] class of [agent_core.py] and the
    properties of its dialogue state machine.

    Conventions of the embedding.
    - A Python [str] is a [string]: the bytes of its UTF-8 encoding.
      [len] counts code points.  [lower], [strip] and [split] are written
      out for the ASCII range: they lower-case A..Z and know the ASCII white
      space, and agree with Python's on ASCII text.
    - A Python [float] is a binary64 value of [PrimFloat]; [int] is [Z].
      [float(s)], [int(s)], [repr] and [round] are written out on exact
      integers, for ASCII digits and ASCII white space.
    - A statement that depends on how text outside the ASCII range is
      stripped, lower-cased, measured or converted has the hypothesis that
      the text is ASCII ([Str.is_ascii], [Val.is_ascii], [plain_answers]).
    - A Python value that the agent stores, receives or reads from a JSON
      reply is a [pyval]: [None], a [bool], an [int], a [float], a [str],
      a [list] or a [dict] with string keys.
    - [self.memory] is a finite map from keys to values; the other
      attributes of [Agent] are the fields of the record [Agent].
    - The [answers] of [provide_followup_answers] are the items of the
      dictionary in order, the questions being strings; the text of
      [handle_user_input] is a string or [None].
    - A call that can raise is a computation in the monad [M]: it returns
      an [outcome] together with the state it leaves behind, so the
      mutations made before an exception are kept, as in Python.
    - The log holds structured events instead of formatted text, without
      the time stamps.
    - The HTTP exchanges with the Agro API and the process environment are
      given by a [World]; every request made is recorded in a trace.
    - Of the page [frontend_app.py], the functions [normalize_question],
      [dedupe_questions] and [ask_followups] are embedded in the module
      [Frontend]; the values the widgets return and the MD5 digest are
      given by a [Frontend.Host]. *)

From Stdlib Require Import ZArith Ascii String List Bool Floats Lia.
From stdpp Require Import base option list gmap strings.

Set Warnings "-register-all,-inexact-float".

Open Scope string_scope.
Open Scope Z_scope.

(** ** Python strings *)

Module Str.

Definition ord (c : ascii) : Z := Z.of_nat (nat_of_ascii c).

Definition chr (z : Z) : ascii := ascii_of_nat (Z.to_nat z).

(** [str.isspace] on the ASCII range: TAB..CR, FS..US and the space. *)
Definition is_space (c : ascii) : bool :=
  ((9 <=? ord c) && (ord c <=? 13)) || ((28 <=? ord c) && (ord c <=? 32)).

Definition is_upper (c : ascii) : bool := (65 <=? ord c) && (ord c <=? 90).

Definition is_digit (c : ascii) : bool := (48 <=? ord c) && (ord c <=? 57).

Definition lower_char (c : ascii) : ascii :=
  if is_upper c then chr (ord c + 32) else c.

(** [s.lower()] on ASCII text: the other bytes are left as they are. *)
Fixpoint lower (s : string) : string :=
  match s with
  | EmptyString => EmptyString
  | String c r => String (lower_char c) (lower r)
  end.

Fixpoint rev_onto (s acc : string) : string :=
  match s with
  | EmptyString => acc
  | String c r => rev_onto r (String c acc)
  end.

Definition rev (s : string) : string := rev_onto s EmptyString.

Fixpoint lstrip_with (p : ascii -> bool) (s : string) : string :=
  match s with
  | EmptyString => EmptyString
  | String c r => if p c then lstrip_with p r else s
  end.

Definition strip_with (p : ascii -> bool) (s : string) : string :=
  rev (lstrip_with p (rev (lstrip_with p s))).

(** [s.strip()] on ASCII text: the white space of [is_space] is removed. *)
Definition strip (s : string) : string := strip_with is_space s.

(** [s.split()]: the maximal runs of characters that are not white space.
    [cur] is the run being read, reversed. *)
Fixpoint split_ws_aux (s cur : string) : list string :=
  match s with
  | EmptyString => if String.eqb cur "" then [] else [rev cur]
  | String c r =>
      if is_space c
      then (if String.eqb cur "" then split_ws_aux r "" else rev cur :: split_ws_aux r "")
      else split_ws_aux r (String c cur)
  end.

Definition split_ws (s : string) : list string := split_ws_aux s "".

(** [s.split(c)] for a one-character separator: never empty. *)
Fixpoint split_on_aux (sep : ascii) (s cur : string) : list string :=
  match s with
  | EmptyString => [rev cur]
  | String c r =>
      if Ascii.eqb c sep then rev cur :: split_on_aux sep r ""
      else split_on_aux sep r (String c cur)
  end.

Definition split_on (sep : ascii) (s : string) : list string := split_on_aux sep s "".

(** [sep.join(l)] *)
Fixpoint join (sep : string) (l : list string) : string :=
  match l with
  | [] => ""
  | [x] => x
  | x :: r => x ++ sep ++ join sep r
  end.

(** [sub in s] *)
Fixpoint contains (sub s : string) : bool :=
  String.prefix sub s ||
  match s with
  | EmptyString => false
  | String _ r => contains sub r
  end.

(** [s.replace(c, new)] for a one-character pattern. *)
Fixpoint replace (c : ascii) (new s : string) : string :=
  match s with
  | EmptyString => EmptyString
  | String d r => (if Ascii.eqb d c then new else String d "") ++ replace c new r
  end.

(** A byte that continues a UTF-8 sequence: [10xxxxxx]. *)
Definition is_continuation (c : ascii) : bool := (128 <=? ord c) && (ord c <? 192).

(** The number of code points of a UTF-8 text: the bytes that start a
    sequence. *)
Fixpoint code_points (s : string) : nat :=
  match s with
  | EmptyString => 0%nat
  | String c r => ((if is_continuation c then 0 else 1) + code_points r)%nat
  end.

(** [len(s)] *)
Definition len (s : string) : Z := Z.of_nat (code_points s).

(** [s.isascii()] *)
Fixpoint is_ascii (s : string) : bool :=
  match s with
  | EmptyString => true
  | String c r => (ord c <? 128) && is_ascii r
  end.

End Str.

(** ** Python numbers *)

Module Num.

Import Str.

Definition digit_val (c : ascii) : Z := ord c - 48.

(** The white space that [int] and [float] skip around a number in an
    ASCII string: TAB..CR and the space. *)
Definition is_blank (c : ascii) : bool :=
  ((9 <=? ord c) && (ord c <=? 13)) || (ord c =? 32).

(** Digits after a digit: more digits, each optionally preceded by one
    underscore.  Returns the digits read and the text left over. *)
Fixpoint digits_tail (s : string) : list Z * string :=
  match s with
  | EmptyString => ([], s)
  | String c r =>
      if is_digit c then
        let '(ds, rest) := digits_tail r in (digit_val c :: ds, rest)
      else if Ascii.eqb c "_" then
        match r with
        | String c' r' =>
            if is_digit c' then
              let '(ds, rest) := digits_tail r' in (digit_val c' :: ds, rest)
            else ([], s)
        | EmptyString => ([], s)
        end
      else ([], s)
  end.

Definition digitpart (s : string) : list Z * string :=
  match s with
  | String c r =>
      if is_digit c then
        let '(ds, rest) := digits_tail r in (digit_val c :: ds, rest)
      else ([], s)
  | EmptyString => ([], s)
  end.

Definition of_digits (ds : list Z) : Z := fold_left (fun acc d => 10 * acc + d) ds 0.

(** An optional sign: [true] for a minus. *)
Definition read_sign (s : string) : bool * string :=
  match s with
  | String c r =>
      if Ascii.eqb c "-" then (true, r)
      else if Ascii.eqb c "+" then (false, r)
      else (false, s)
  | EmptyString => (false, s)
  end.

(** [int(s)] in base ten for ASCII text; [None] stands for [ValueError]. *)
Definition int_of_str (s : string) : option Z :=
  let '(neg, body) := read_sign (strip_with is_blank s) in
  match digitpart body with
  | ((_ :: _) as ds, EmptyString) => Some (if neg then - of_digits ds else of_digits ds)
  | _ => None
  end.

Fixpoint str_of_pos_aux (fuel : nat) (n : Z) (acc : string) : string :=
  match fuel with
  | O => acc
  | S fuel' =>
      let acc' := String (chr (48 + n mod 10)) acc in
      if n <? 10 then acc' else str_of_pos_aux fuel' (n / 10) acc'
  end.

(** [str(n)] for an [int]. *)
Definition str_of_int (n : Z) : string :=
  let body := str_of_pos_aux (S (Z.to_nat (Z.log2 (Z.abs n)))) (Z.abs n) "" in
  if n <? 0 then String "-" body else body.

(** *** Floats *)

Definition is_inf (f : float) : bool :=
  PrimFloat.eqb f infinity || PrimFloat.eqb f neg_infinity.

Definition with_sign (neg : bool) (f : float) : float := if neg then (- f)%float else f.

(** The binary64 value nearest to [m * 10 ^ e] (ties to even), [0 <= m]. *)
Definition float_of_decimal (m e : Z) : float :=
  if m =? 0 then 0%float
  else if 0 <=? e then SF2Prim (binary_normalize prec emax (m * 10 ^ e) 0 false)
  else SF2Prim (SFdiv prec emax (S754_finite false (Z.to_pos m) 0)
                                (S754_finite false (Z.to_pos (10 ^ (- e))) 0)).

(** [float(n)] for an [int]; [None] stands for [OverflowError]. *)
Definition float_of_int (n : Z) : option float :=
  let f := SF2Prim (binary_normalize prec emax n 0 false) in
  if is_inf f then None else Some f.

(** The exponent part of a float literal: [e], an optional sign and digits. *)
Definition read_exponent (s : string) : option (Z * string) :=
  match s with
  | String c r =>
      if Ascii.eqb c "e" || Ascii.eqb c "E" then
        let '(neg, r1) := read_sign r in
        match digitpart r1 with
        | ((_ :: _) as ds, rest) => Some (if neg then - of_digits ds else of_digits ds, rest)
        | _ => None
        end
      else Some (0, s)
  | EmptyString => Some (0, s)
  end.

(** [float(s)] for a string of ASCII text; [None] stands for [ValueError]. *)
Definition float_of_str (s : string) : option float :=
  let '(neg, body) := read_sign (strip_with is_blank s) in
  let low := lower body in
  if String.eqb low "inf" || String.eqb low "infinity" then Some (with_sign neg infinity)
  else if String.eqb low "nan" then Some nan
  else
    let '(ip, r1) := digitpart body in
    let '(fp, r2) :=
      match r1 with
      | String "." r => digitpart r
      | _ => ([], r1)
      end in
    match (ip ++ fp)%list with
    | [] => None
    | ds =>
        match read_exponent r2 with
        | Some (ex, EmptyString) =>
            Some (with_sign neg (float_of_decimal (of_digits ds) (ex - Z.of_nat (length fp))))
        | _ => None
        end
    end.

(** *** [repr] of a float: the shortest digits that read back to it

    [r / s] is the value left to print, [mp / s] and [mm / s] half the
    distance to the next float above and below.  A digit string is
    accepted as soon as it falls between the two, the bounds included when
    the mantissa is even. *)

Fixpoint scale_up (fuel : nat) (r s k : Z) : Z * Z :=
  match fuel with
  | O => (s, k)
  | S fuel' => if 10 * s <=? r then scale_up fuel' r (10 * s) (k + 1) else (s, k)
  end.

Fixpoint scale_down (fuel : nat) (r s mp mm k : Z) : Z * Z * Z * Z :=
  match fuel with
  | O => (r, mp, mm, k)
  | S fuel' =>
      if r <? s then scale_down fuel' (10 * r) s (10 * mp) (10 * mm) (k - 1)
      else (r, mp, mm, k)
  end.

(** Returns the digits read as a number and how many were produced. *)
Fixpoint gen_digits (fuel : nat) (even : bool) (r s mp mm acc n : Z) : Z * Z :=
  match fuel with
  | O => (acc, n)
  | S fuel' =>
      let d := r / s in
      let r' := r mod s in
      let acc' := 10 * acc + d in
      let low := (r' <? mm) || (even && (r' =? mm)) in
      let high := s <? r' + mp in
      if even && (r' + mp =? s) then
        (if mm <? r' then acc' + 1 else acc', n + 1)
      else if low then
        if r' =? 0 then (acc', n + 1)
        else if high && ((s <? 2 * r') || ((2 * r' =? s) && Z.odd d)) then (acc' + 1, n + 1)
        else (acc', n + 1)
      else if high then (acc' + 1, n + 1)
      else gen_digits fuel' even (10 * r') s (10 * mp) (10 * mm) acc' (n + 1)
  end.

Fixpoint strip_zeros (fuel : nat) (n : Z) : Z :=
  match fuel with
  | O => n
  | S fuel' => if (n mod 10 =? 0) && negb (n =? 0) then strip_zeros fuel' (n / 10) else n
  end.

(** The shortest digits of [m * 2 ^ e] and the position of the decimal
    point: the value reads [0.d1d2...dn * 10 ^ decpt]. *)
Definition shortest_digits (m e : Z) : string * Z :=
  let up := 2 ^ Z.max e 0 in
  let s0 := 4 * 2 ^ Z.max (- e) 0 in
  let r0 := 4 * m * up in
  let mp0 := 2 * up in
  let mm0 := if (m =? 2 ^ 52) && (-1074 <? e) then up else 2 * up in
  let '(s, k0) := scale_up 400 r0 s0 0 in
  let '(r, mp, mm, k) := scale_down 400 r0 s mp0 mm0 k0 in
  let '(acc, n) := gen_digits 40 (Z.even m) r s mp mm 0 0 in
  let all := str_of_int acc in
  (str_of_int (strip_zeros 40 acc), k + 1 + (len all - n)).

Fixpoint zeros (n : nat) : string :=
  match n with
  | O => ""
  | S n' => String "0" (zeros n')
  end.

Definition str_take (n : Z) (s : string) : string := String.substring 0 (Z.to_nat n) s.

Definition str_drop (n : Z) (s : string) : string :=
  String.substring (Z.to_nat n) (String.length s - Z.to_nat n) s.

(** The layout of [repr]: exponent notation when the decimal point falls
    more than three places before the digits or more than sixteen after
    their start. *)
Definition format_repr (digits : string) (decpt : Z) : string :=
  if (decpt <=? -4) || (16 <? decpt) then
    let ex := decpt - 1 in
    let exs := str_of_int (Z.abs ex) in
    let exs := if len exs <? 2 then "0" ++ exs else exs in
    str_take 1 digits
      ++ (if 1 <? len digits then "." ++ str_drop 1 digits else "")
      ++ "e" ++ (if ex <? 0 then "-" else "+") ++ exs
  else if decpt <=? 0 then "0." ++ zeros (Z.to_nat (- decpt)) ++ digits
  else if len digits <=? decpt then digits ++ zeros (Z.to_nat (decpt - len digits)) ++ ".0"
  else str_take decpt digits ++ "." ++ str_drop decpt digits.

(** [repr(f)], which is also [str(f)]. *)
Definition str_of_float (f : float) : string :=
  match Prim2SF f with
  | S754_nan => "nan"
  | S754_infinity neg => if neg then "-inf" else "inf"
  | S754_zero neg => if neg then "-0.0" else "0.0"
  | S754_finite neg m e =>
      let '(digits, decpt) := shortest_digits (Z.pos m) e in
      (if neg then "-" else "") ++ format_repr digits decpt
  end.

(** [round(f, 2)]: the float nearest to the decimal with two places nearest
    to [f], ties to even at both steps. *)
Definition round2 (f : float) : float :=
  match Prim2SF f with
  | S754_finite neg m e =>
      let num := 100 * Z.pos m * 2 ^ Z.max e 0 in
      let den := 2 ^ Z.max (- e) 0 in
      let q := num / den in
      let r := num mod den in
      let q' := if (den <? 2 * r) || ((2 * r =? den) && Z.odd q) then q + 1 else q in
      if q' =? 0 then with_sign neg 0%float
      else with_sign neg (float_of_decimal q' (-2))
  | _ => f
  end.

(** Whether the float [f] and the integer [n] are the same number. *)
Definition float_eq_int (f : float) (n : Z) : bool :=
  match Prim2SF f with
  | S754_zero _ => n =? 0
  | S754_finite neg m e =>
      let v := if neg then Z.neg m else Z.pos m in
      if 0 <=? e then n =? v * 2 ^ e else n * 2 ^ (- e) =? v
  | _ => false
  end.

End Num.

(** ** Python values *)

Inductive pyval : Type :=
  | PNone
  | PBool (b : bool)
  | PInt (n : Z)
  | PFloat (f : float)
  | PStr (s : string)
  | PList (l : list pyval)
  | PDict (d : list (string * pyval)).

(** The exceptions the agent can meet. *)
Inductive exn : Type :=
  | TypeError
  | ValueError
  | OverflowError
  | AttributeError
  | KeyError
  | RequestException.

Module Val.

Import Str Num.

(** A [dict] inside a value: an association list with distinct keys, in
    insertion order. *)
Fixpoint dict_get (k : string) (d : list (string * pyval)) : option pyval :=
  match d with
  | [] => None
  | (k', v) :: r => if String.eqb k k' then Some v else dict_get k r
  end.

(** [d[k] = v] *)
Fixpoint dict_set (k : string) (v : pyval) (d : list (string * pyval)) : list (string * pyval) :=
  match d with
  | [] => [(k, v)]
  | (k', v') :: r => if String.eqb k k' then (k, v) :: r else (k', v') :: dict_set k v r
  end.

(** [bool(v)] *)
Definition truthy (v : pyval) : bool :=
  match v with
  | PNone => false
  | PBool b => b
  | PInt n => negb (n =? 0)
  | PFloat f => negb (PrimFloat.eqb f 0)
  | PStr s => negb (String.eqb s "")
  | PList l => match l with [] => false | _ => true end
  | PDict d => match d with [] => false | _ => true end
  end.

Definition dquote : ascii := chr 34.

Definition hex_digit (n : Z) : ascii := if n <? 10 then chr (48 + n) else chr (87 + n).

Definition repr_char (q c : ascii) : string :=
  if Ascii.eqb c "\" then "\\"
  else if Ascii.eqb c q then String "\" (String c "")
  else if ord c =? 9 then "\t"
  else if ord c =? 10 then "\n"
  else if ord c =? 13 then "\r"
  else if (ord c <? 32) || (ord c =? 127)
  then String "\" (String "x" (String (hex_digit (ord c / 16)) (String (hex_digit (ord c mod 16)) "")))
  else String c "".

Fixpoint repr_chars (q : ascii) (s : string) : string :=
  match s with
  | EmptyString => EmptyString
  | String c r => repr_char q c ++ repr_chars q r
  end.

(** [repr(s)] for a string: single quotes, unless the text holds one and no
    double quote. *)
Definition repr_str (s : string) : string :=
  let q := if contains "'" s && negb (contains (String dquote "") s) then dquote else "'"%char in
  String q (repr_chars q s ++ String q "").

(** [repr(v)] *)
Fixpoint py_repr (v : pyval) : string :=
  match v with
  | PNone => "None"
  | PBool b => if b then "True" else "False"
  | PInt n => str_of_int n
  | PFloat f => str_of_float f
  | PStr s => repr_str s
  | PList l => "[" ++ join ", " (map py_repr l) ++ "]"
  | PDict d => "{" ++ join ", " (map (fun kv => repr_str (fst kv) ++ ": " ++ py_repr (snd kv)) d) ++ "}"
  end.

(** [str(v)] *)
Definition py_str (v : pyval) : string :=
  match v with
  | PStr s => s
  | _ => py_repr v
  end.

(** [float(v)], or the exception it raises. *)
Definition py_float (v : pyval) : exn + float :=
  match v with
  | PBool b => inr (if b then 1%float else 0%float)
  | PInt n => match float_of_int n with Some f => inr f | None => inl OverflowError end
  | PFloat f => inr f
  | PStr s => match float_of_str s with Some f => inr f | None => inl ValueError end
  | PNone | PList _ | PDict _ => inl TypeError
  end.

(** Numbers compare across [bool], [int] and [float]. *)
Definition as_int (v : pyval) : option Z :=
  match v with
  | PBool b => Some (if b then 1 else 0)
  | PInt n => Some n
  | _ => None
  end.

(** [a == b] *)
Fixpoint py_eq (a b : pyval) {struct a} : bool :=
  match a, b with
  | PNone, PNone => true
  | PStr s, PStr t => String.eqb s t
  | PFloat f, PFloat g => PrimFloat.eqb f g
  | PFloat f, (PInt _ | PBool _) => match as_int b with Some n => float_eq_int f n | None => false end
  | (PInt _ | PBool _), PFloat g => match as_int a with Some n => float_eq_int g n | None => false end
  | (PInt _ | PBool _), (PInt _ | PBool _) =>
      match as_int a, as_int b with
      | Some n, Some m => n =? m
      | _, _ => false
      end
  | PList l, PList m =>
      (fix all2 (l m : list pyval) {struct l} : bool :=
         match l, m with
         | [], [] => true
         | x :: l', y :: m' => py_eq x y && all2 l' m'
         | _, _ => false
         end) l m
  | PDict d, PDict e =>
      (length d =? length e)%nat &&
      (fix all (d : list (string * pyval)) : bool :=
         match d with
         | [] => true
         | (k, v) :: d' =>
             match dict_get k e with
             | Some w => py_eq v w
             | None => false
             end && all d'
         end) d
  | _, _ => false
  end.

(** Whether every text in a value, at any depth, is ASCII. *)
Fixpoint is_ascii (v : pyval) : bool :=
  match v with
  | PStr s => Str.is_ascii s
  | PList l => forallb is_ascii l
  | PDict d => forallb (fun kv => Str.is_ascii (fst kv) && is_ascii (snd kv)) d
  | _ => true
  end.

End Val.

Import Val.

(** ** The data of the agent *)

(** A plan step, [{"name": ..., "requires": [...]}]; [requires] is [None]
    for a step without that key. *)
Record step : Type := Step { name : string; requires : option (list string) }.

(** [step.get("requires", [])] *)
Definition step_requires (st : step) : list string := default [] (requires st).

(** The [inputs] of the decision engine. *)
Record inputs : Type := Inputs {
  in_area_acres : float;
  in_soil_type : string;
  in_ph : float;
  in_moisture : string }.

(** What [crop_recommendation_tool] returns. *)
Record recommendation : Type := Recommendation {
  crop : string;
  reason : string;
  confidence : string;
  estimated_costs : list (string * float) }.

Record task : Type := Task { task_text : string; weeks : Z; notes : string }.

(** The [final] dictionary of [execute_plan]. *)
Record final_result : Type := FinalResult {
  fr_recommendation : string;
  fr_plan : list task;
  fr_costs : list (string * float);
  fr_rationale : string }.

(** ** Field registry *)

Definition q_area_acres : string := "Area in acres (e.g., 2)".
Definition q_soil_type : string := "Soil type (e.g., clay, sandy, loam, silty, peaty, chalky)".
Definition q_ph : string := "Soil pH (e.g., 6.5)".
Definition q_moisture : string := "Moisture level (low / medium / high)".
Definition q_location : string :=
  "Location (lat, lon) — comma separated (e.g., 12.9716,77.5946)".

Fixpoint assoc (k : string) (l : list (string * string)) : option string :=
  match l with
  | [] => None
  | (k', v) :: r => if String.eqb k k' then Some v else assoc k r
  end.

Definition field_to_question (field_name : string) : string :=
  let mapping :=
    [ ("area acres", q_area_acres);
      ("soil type", q_soil_type);
      ("ph", q_ph);
      ("moisture", q_moisture);
      ("location", q_location) ] in
  default ("Please provide " ++ field_name) (assoc field_name mapping).

Definition _normalize (text : string) : string :=
  Str.join " " (Str.split_ws (Str.lower (Str.strip text))).

(** The first field of [mapping] whose normalized question is [q]. *)
Fixpoint exact_field (q : string) (mapping : list (string * string)) : option string :=
  match mapping with
  | [] => None
  | (field, qnorm) :: r => if String.eqb q qnorm then Some field else exact_field q r
  end.

Definition question_to_field (question_text : string) : option string :=
  let q := _normalize question_text in
  let mapping :=
    [ ("area_acres", _normalize q_area_acres);
      ("soil_type", _normalize q_soil_type);
      ("ph", _normalize q_ph);
      ("moisture", _normalize q_moisture);
      ("location", _normalize q_location) ] in
  match exact_field q mapping with
  | Some field => Some field
  | None =>
      if Str.contains "area" q then Some "area_acres"
      else if Str.contains "soil" q && Str.contains "type" q then Some "soil_type"
      else if Str.contains "ph" q || Str.contains "pH" question_text then Some "ph"
      else if Str.contains "moisture" q then Some "moisture"
      else if Str.contains "location" q || (Str.contains "lat" q && Str.contains "lon" q)
      then Some "location"
      else None
  end.

Definition _safe_key_from_question (question_text : string) : string :=
  let q := _normalize question_text in
  Str.replace "," ""
    (Str.replace "/" "_"
      (Str.replace ")" "" (Str.replace "(" "" (Str.replace " " "_" q)))).

(** ** Planner *)

Definition simple_planner (text : option string) : list step :=
  let txt := Str.lower (default "" text) in
  let required :=
    ((if Str.contains "acre" txt || Str.contains "area" txt then ["area_acres"] else [])
       ++ ["soil_type"; "ph"; "moisture"; "location"])%list in
  [ Step "collect_info" (Some required);
    Step "call_crop_tool" (Some ["soil_type"; "ph"; "area_acres"; "moisture"]);
    Step "build_plan" (Some ["crop_recommendation"]) ].

(** ** Missing-field resolver *)

(** The first loop of [identify_missing_fields]: the required fields that
    are not keys of the memory, in scan order, underscores turned to
    spaces. *)
Definition missing_fields (plan : list step) (memory : gmap string pyval) : list string :=
  flat_map
    (fun st =>
       map (Str.replace "_" " ")
         (filter (fun field => memory !! field = None) (step_requires st)))
    plan.

(** The second loop: one question per missing field not seen before. *)
Fixpoint dedupe_questions (missing : list string) (seen : gset string) : list string :=
  match missing with
  | [] => []
  | m :: r =>
      if decide (m ∈ seen) then dedupe_questions r seen
      else field_to_question m :: dedupe_questions r ({[m]} ∪ seen)
  end.

Definition identify_missing_fields (plan : list step) (memory : gmap string pyval) : list string :=
  dedupe_questions (missing_fields plan memory) ∅.

(** ** Answer normalizer *)

Definition float_or_none (r : exn + float) : option pyval :=
  match r with
  | inr f => Some (PFloat f)
  | inl _ => None
  end.

Definition _parse_answer_for_field (field : string) (answer : pyval) : pyval :=
  match answer with
  | PNone => PNone
  | _ =>
      (* the first [try]: [None] when it raises or no field matches *)
      let by_field :=
        if String.eqb field "area_acres" then float_or_none (py_float answer)
        else if String.eqb field "ph" then float_or_none (py_float answer)
        else if String.eqb field "moisture" then Some (PStr (Str.lower (Str.strip (py_str answer))))
        else if String.eqb field "soil_type" then Some (PStr (Str.lower (Str.strip (py_str answer))))
        else if String.eqb field "location" then Some (PStr (Str.strip (py_str answer)))
        else None in
      match by_field with
      | Some v => v
      | None =>
          let s := Str.strip (py_str answer) in
          let number :=
            if Str.contains "." s then PFloat <$> Num.float_of_str s
            else PInt <$> Num.int_of_str s in
          default (PStr s) number
      end
  end.

(** ** Decision engine *)

Definition soil_aliases : list (string * list string) :=
  [ ("clay", ["clay"]);
    ("loam", ["loam"]);
    ("sandy", ["sand"; "sandy"]);
    ("silty", ["silt"; "silty"]);
    ("peaty", ["peat"; "peaty"]);
    ("chalky", ["chalk"; "chalky"]) ].

(** The first key one of whose aliases occurs in [soil_raw]. *)
Fixpoint find_soil_key (soil_raw : string) (aliases : list (string * list string)) : option string :=
  match aliases with
  | [] => None
  | (k, vals) :: r =>
      if existsb (fun v => Str.contains v soil_raw) vals then Some k
      else find_soil_key soil_raw r
  end.

Definition str_in (s : string) (l : list string) : bool := existsb (String.eqb s) l.

(** [round(rate * area, 2)] *)
Definition cost (rate : float) (area : float) : float := Num.round2 (rate * area)%float.

Definition between (lo x hi : float) : bool := (lo <=? x)%float && (x <=? hi)%float.

Definition crop_recommendation_tool (i : inputs) : recommendation :=
  let soil_raw := Str.lower (in_soil_type i) in
  let ph := in_ph i in
  let moisture :=
    Str.lower (if String.eqb (in_moisture i) "" then "medium" else in_moisture i) in
  let area := in_area_acres i in
  let soil_key := default "unknown" (find_soil_key soil_raw soil_aliases) in
  let wet := str_in moisture ["medium"; "high"] in
  if str_in soil_key ["clay"; "loam"] then
    if between 5.5 ph 7.5 && wet then
      Recommendation "Maize"
        "Loamy/clay soil with near-neutral pH and sufficient moisture suits maize."
        "high" [("seeds", cost 1000 area); ("fertilizers", cost 800 area)]
    else if String.eqb moisture "low" then
      Recommendation "Pulses (e.g., Pigeon pea)"
        "Drier conditions favor drought-tolerant pulses."
        "medium" [("seeds", cost 700 area); ("fertilizers", cost 400 area)]
    else
      Recommendation "Maize" "General good fit for loamy/clay soils."
        "medium" [("seeds", cost 1000 area)]
  else if String.eqb soil_key "sandy" then
    if String.eqb moisture "low" && between 5.5 ph 7.0 then
      Recommendation "Millet" "Sandy + low moisture favors millet."
        "high" [("seeds", cost 600 area); ("fertilizers", cost 400 area)]
    else if wet && between 5.5 ph 7.5 then
      Recommendation "Groundnut"
        "Groundnut performs well in sandy soils with moderate moisture."
        "medium" [("seeds", cost 700 area); ("fertilizers", cost 500 area)]
    else
      Recommendation "Millet" "Conservative choice for sandy when uncertain."
        "medium" [("seeds", cost 650 area)]
  else if String.eqb soil_key "silty" then
    if between 6.0 ph 7.5 && wet then
      Recommendation "Wheat" "Silty + moist + near-neutral pH suits wheat."
        "high" [("seeds", cost 1200 area); ("fertilizers", cost 900 area)]
    else
      Recommendation "Barley" "Barley tolerates variable silty conditions."
        "medium" [("seeds", cost 1100 area); ("fertilizers", cost 850 area)]
  else if String.eqb soil_key "peaty" then
    if String.eqb moisture "high" then
      Recommendation "Rice" "Peaty soils retain water — rice is well suited."
        "high" [("seeds", cost 1300 area); ("fertilizers", cost 1000 area)]
    else
      Recommendation "Maize" "Peaty but drier -> maize possible."
        "medium" [("seeds", cost 1000 area)]
  else if String.eqb soil_key "chalky" then
    if (7.0 <? ph)%float && wet then
      Recommendation "Sugarcane" "Alkaline chalky soils with moisture suit sugarcane."
        "medium" [("seeds", cost 1400 area); ("fertilizers", cost 1100 area)]
    else
      Recommendation "Wheat" "Wheat tolerates chalky conditions."
        "low" [("seeds", cost 1200 area); ("fertilizers", cost 900 area)]
  else
    if String.eqb moisture "low" then
      Recommendation "Millet" "Default drought-tolerant choice when soil unknown."
        "medium" [("seeds", cost 700 area)]
    else if wet && between 6.0 ph 7.5 then
      Recommendation "Maize" "General-purpose choice for neutral pH and adequate moisture."
        "medium" [("seeds", cost 1000 area)]
    else
      Recommendation "Maize" "Fallback recommendation." "low" [("seeds", cost 1000 area)].

(** ** Plan builder *)

Definition build_action_plan (i : inputs) (rec : recommendation) : list task :=
  let area := Num.str_of_float (in_area_acres i) in
  [ Task ("Land preparation and seed purchase for " ++ crop rec ++ " on " ++ area ++ " acres")
      1 "Prepare field, buy certified seeds.";
    Task ("Sowing and initial fertilizer application for " ++ crop rec)
      2 "Sow seeds at recommended spacing. Apply basal fertilizer.";
    Task ("Crop maintenance and harvest planning for " ++ crop rec)
      10 "Irrigation as needed, pest checks, harvesting timeline planning." ].

(** ** State, log and world *)

(** The entries of [self.logs], one constructor per message. *)
Inductive event : Type :=
  | EvReceived (text : option string)
  | EvPlannerSteps (plan : list step)
  | EvMissingFields (questions : list string)
  | EvExecutionCompleted
  | EvStored (field : string) (parsed : pyval)
  | EvLocationAsPolyid (loc : string)
  | EvAgroFetched (fetched : bool)
  | EvBadLocation (loc : string) (e : exn)
  | EvSoilMoisture (sm : float) (moisture : string)
  | EvUsingInputs (i : inputs)
  | EvCropTool (rec : recommendation)
  | EvApiKeyMissing
  | EvEmptyFeatureCollection
  | EvPolygonCreated (name : string) (polyid : pyval)
  | EvPolygonCreateFailed
  | EvPolygonCreateError
  | EvPolygonDeleted (polyid : pyval)
  | EvPolygonDeleteFailed
  | EvPolygonDeleteError
  | EvSoilFetchFailed
  | EvSoilFetchError
  | EvWeatherFetchFailed
  | EvWeatherFetchError
  | EvApiKeyMissingForLocation
  | EvStoredAgro
  | EvStoreAgroError (e : exn).

Record Agent : Type := MkAgent {
  memory : gmap string pyval;
  logs : list event;
  pending_questions : list string;
  last_user_input : string;
  last_result : option final_result }.

(** [Agent()] *)
Definition new_agent : Agent := MkAgent ∅ [] [] "" None.

(** A request to the Agro API. *)
Inductive request : Type :=
  | CreatePolygon (name : string) (geo_json : pyval)
  | DeletePolygon (polyid : pyval)
  | GetSoil (polyid : pyval)
  | GetWeather (polyid : pyval).

(** What [requests] gives back: an exception, or a response with its [ok]
    flag and the value of [resp.json()], [None] when that call raises. *)
Inductive reply : Type :=
  | ConnectionError
  | Response (ok : bool) (json : option pyval).

(** What lies outside the agent during one call: the API key of the
    environment, the clock, and the server, which answers a request
    knowing the requests made before it. *)
Record World : Type := MkWorld {
  env_api_key : string;
  clock : Z;
  respond : list request -> request -> reply }.

(** The state a call works on: the agent and the requests sent so far. *)
Record Run : Type := MkRun { self : Agent; sent : list request }.

Inductive outcome (A : Type) : Type :=
  | Ret (a : A)
  | Raise (e : exn).

Arguments Ret {A} a.
Arguments Raise {A} e.

Definition M (A : Type) : Type := Run -> outcome A * Run.

Definition ret {A} (a : A) : M A := fun r => (Ret a, r).

Definition raise {A} (e : exn) : M A := fun r => (Raise e, r).

Definition bind {A B} (m : M A) (k : A -> M B) : M B :=
  fun r =>
    match m r with
    | (Ret a, r') => k a r'
    | (Raise e, r') => (Raise e, r')
    end.

(** [try: m except Exception as e: h e] *)
Definition try_except {A} (m : M A) (h : exn -> M A) : M A :=
  fun r =>
    match m r with
    | (Ret a, r') => (Ret a, r')
    | (Raise e, r') => h e r'
    end.

Notation "x <- m ;; k" := (bind m (fun x => k))
  (at level 100, m at next level, right associativity).
Notation "m ;;; k" := (bind m (fun _ => k))
  (at level 100, right associativity).

Definition lift {A} (r : exn + A) : M A :=
  match r with
  | inl e => raise e
  | inr a => ret a
  end.

Definition get_memory : M (gmap string pyval) := fun r => (Ret (memory (self r)), r).

Definition on_agent (f : Agent -> Agent) : M unit :=
  fun r => (Ret tt, MkRun (f (self r)) (sent r)).

(** [self.memory[k] = v] *)
Definition store (k : string) (v : pyval) : M unit :=
  on_agent (fun a =>
    MkAgent (<[k:=v]> (memory a)) (logs a) (pending_questions a) (last_user_input a) (last_result a)).

(** [self.logs.append(ev)] *)
Definition log (ev : event) : M unit :=
  on_agent (fun a =>
    MkAgent (memory a) (logs a ++ [ev]) (pending_questions a) (last_user_input a) (last_result a)).

Definition set_pending_questions (qs : list string) : M unit :=
  on_agent (fun a => MkAgent (memory a) (logs a) qs (last_user_input a) (last_result a)).

Definition set_last_user_input (s : string) : M unit :=
  on_agent (fun a => MkAgent (memory a) (logs a) (pending_questions a) s (last_result a)).

Definition set_last_result (f : final_result) : M unit :=
  on_agent (fun a => MkAgent (memory a) (logs a) (pending_questions a) (last_user_input a) (Some f)).

Definition get_logs : M (list event) := fun r => (Ret (logs (self r)), r).

Definition get_last_user_input : M string := fun r => (Ret (last_user_input (self r)), r).

(** Send [req] and read the reply of the world. *)
Definition http (w : World) (req : request) : M reply :=
  fun r => (Ret (respond w (sent r) req), MkRun (self r) (sent r ++ [req])).

(** ** Execution *)

(** The qualitative moisture of a soil-moisture reading. *)
Definition moisture_of_reading (sm : float) : string :=
  if (sm <? 0.15)%float then "low"
  else if (sm <? 0.35)%float then "medium"
  else "high".

(** The first half of [execute_plan]: the inputs of the decision engine
    read from the memory, with their defaults. *)
Definition read_inputs : M inputs :=
  mem <- get_memory ;;
  area <- lift (py_float (default (PInt 1) (mem !! "area_acres"))) ;;
  let soil_type := Str.lower (py_str (default (PStr "clay") (mem !! "soil_type"))) in
  ph <- lift (py_float (default (PFloat 6.5) (mem !! "ph"))) ;;
  let moisture := Str.lower (py_str (default (PStr "medium") (mem !! "moisture"))) in
  moisture <-
    match mem !! "soil_moisture" with
    | Some reading =>
        try_except
          (sm <- lift (py_float reading) ;;
           let moisture := moisture_of_reading sm in
           log (EvSoilMoisture sm moisture) ;;;
           ret moisture)
          (fun _ => ret moisture)
    | None => ret moisture
    end ;;
  ret (Inputs area soil_type ph moisture).

(** The [final] dictionary built from the inputs. *)
Definition final_of_inputs (i : inputs) : final_result :=
  let rec := crop_recommendation_tool i in
  let plan_out := build_action_plan i rec in
  FinalResult
    ("Recommended crop: " ++ crop rec ++ " (confidence: " ++ confidence rec ++ ")")
    plan_out (estimated_costs rec) (reason rec).

Definition execute_plan (plan : list step) : M final_result :=
  i <- read_inputs ;;
  log (EvUsingInputs i) ;;;
  log (EvCropTool (crop_recommendation_tool i)) ;;;
  ret (final_of_inputs i).

(** ** Enrichment *)

(** [v[0] if isinstance(v, list) and v else v] *)
Definition first_if_list (v : pyval) : pyval :=
  match v with
  | PList (x :: _) => x
  | _ => v
  end.

(** [try: self.memory[key] = float(v)  except: self.memory[key] = v] *)
Definition store_float_or_raw (key : string) (v : pyval) : M unit :=
  try_except (f <- lift (py_float v) ;; store key (PFloat f)) (fun _ => store key v).

(** [if k in d: body(d.get(k))] *)
Definition when_key (k : string) (d : list (string * pyval)) (body : pyval -> M unit) : M unit :=
  match dict_get k d with
  | Some v => body v
  | None => ret tt
  end.

Definition _store_agro_payloads (soil weather : pyval) : M unit :=
  try_except
    ((if truthy soil then
        match first_if_list soil with
        | PDict s =>
            when_key "soil_moisture" s (store_float_or_raw "soil_moisture") ;;;
            when_key "soil_temp" s (store_float_or_raw "soil_temp_k")
        | _ => ret tt
        end
      else ret tt) ;;;
     (if truthy weather then
        match first_if_list weather with
        | PDict w =>
            when_key "rain" w (store "agro_precip") ;;;
            when_key "temperature" w (store "agro_temp_k") ;;;
            when_key "ts" w (store "agro_weather_ts")
        | _ => ret tt
        end
      else ret tt) ;;;
     log EvStoredAgro)
    (fun e => log (EvStoreAgroError e)).

(** ** Agro helpers *)

Definition _get_api_key (w : World) : string := Str.strip (env_api_key w).

(** A request whose failure to connect is an exception. *)
Definition send (w : World) (req : request) : M (bool * option pyval) :=
  r <- http w req ;;
  match r with
  | ConnectionError => raise RequestException
  | Response ok json => ret (ok, json)
  end.

(** [resp.json()] *)
Definition json_of (body : option pyval) : M pyval :=
  match body with
  | Some v => ret v
  | None => raise ValueError
  end.

(** [obj.get(k)] on a value that has to be a [dict]. *)
Definition attr_get (k : string) (obj : pyval) : M pyval :=
  match obj with
  | PDict d => ret (default PNone (dict_get k d))
  | _ => raise AttributeError
  end.

(** [v[0]] for a value that is true. *)
Definition index0 (v : pyval) : M pyval :=
  match v with
  | PList (x :: _) => ret x
  | PStr (String c _) => ret (PStr (String c ""))
  | PDict _ => raise KeyError
  | _ => raise TypeError
  end.

Definition get_soil_by_polyid (w : World) (polyid : pyval) : M pyval :=
  if String.eqb (_get_api_key w) "" || negb (truthy polyid) then ret PNone
  else
    try_except
      (resp <- send w (GetSoil polyid) ;;
       if fst resp then json_of (snd resp)
       else log EvSoilFetchFailed ;;; ret PNone)
      (fun _ => log EvSoilFetchError ;;; ret PNone).

Definition get_weather_by_polyid (w : World) (polyid : pyval) : M pyval :=
  if String.eqb (_get_api_key w) "" || negb (truthy polyid) then ret PNone
  else
    try_except
      (resp <- send w (GetWeather polyid) ;;
       if fst resp then json_of (snd resp)
       else log EvWeatherFetchFailed ;;; ret PNone)
      (fun _ => log EvWeatherFetchError ;;; ret PNone).

Definition feature_of (geometry : pyval) : pyval :=
  PDict [("type", PStr "Feature"); ("properties", PDict []); ("geometry", geometry)].

Definition has_type (ty : string) (v : pyval) : bool :=
  match v with
  | PDict d => py_eq (default PNone (dict_get "type" d)) (PStr ty)
  | _ => false
  end.

(** The part of [create_polygon_from_geojson] after the feature is chosen. *)
Definition post_polygon (w : World) (geo_feature : pyval) (name : option string) : M pyval :=
  let name :=
    match name with
    | Some (String _ _ as n) => n
    | _ => "field_" ++ Num.str_of_int (clock w)
    end in
  try_except
    (resp <- send w (CreatePolygon name geo_feature) ;;
     if fst resp then
       obj <- json_of (snd resp) ;;
       polyid <- attr_get "id" obj ;;
       mem <- get_memory ;;
       polygons <-
         match mem !! "polygons" with
         | None => ret (dict_set name polyid [])
         | Some (PDict ps) => ret (dict_set name polyid ps)
         | Some _ => raise TypeError
         end ;;
       store "polygons" (PDict polygons) ;;;
       store "last_polygon" obj ;;;
       log (EvPolygonCreated name polyid) ;;;
       ret obj
     else log EvPolygonCreateFailed ;;; ret PNone)
    (fun _ => log EvPolygonCreateError ;;; ret PNone).

Definition create_polygon_from_geojson (w : World) (geojson : pyval) (name : option string)
  : M pyval :=
  if String.eqb (_get_api_key w) "" then log EvApiKeyMissing ;;; ret PNone
  else if has_type "FeatureCollection" geojson then
    let feats :=
      match geojson with
      | PDict d => default (PList []) (dict_get "features" d)
      | _ => PList []
      end in
    if negb (truthy feats) then log EvEmptyFeatureCollection ;;; ret PNone
    else geo_feature <- index0 feats ;; post_polygon w geo_feature name
  else if has_type "Feature" geojson then post_polygon w geojson name
  else post_polygon w (feature_of geojson) name.

Definition delete_polygon_by_id (w : World) (polyid : pyval) : M bool :=
  if String.eqb (_get_api_key w) "" || negb (truthy polyid) then ret false
  else
    try_except
      (resp <- send w (DeletePolygon polyid) ;;
       if fst resp then
         log (EvPolygonDeleted polyid) ;;;
         mem <- get_memory ;;
         match mem !! "polygons" with
         | None => ret tt
         | Some (PDict ps) =>
             store "polygons" (PDict (List.filter (fun kv => negb (py_eq (snd kv) polyid)) ps))
         | Some _ => raise AttributeError
         end ;;;
         ret true
       else log EvPolygonDeleteFailed ;;; ret false)
      (fun _ => log EvPolygonDeleteError ;;; ret false).

(** The square of half-width [delta] around a point. *)
Definition square_around (lat lon : float) : pyval :=
  let delta := 0.001%float in
  let pt (x y : float) := PList [PFloat x; PFloat y] in
  PDict
    [ ("type", PStr "Polygon");
      ("coordinates",
        PList
          [ PList
              [ pt (lon - delta)%float (lat - delta)%float;
                pt (lon + delta)%float (lat - delta)%float;
                pt (lon + delta)%float (lat + delta)%float;
                pt (lon - delta)%float (lat + delta)%float;
                pt (lon - delta)%float (lat - delta)%float ] ]) ].

Definition fetch_agro_for_location (w : World) (lat lon : float) (cleanup : bool) : M pyval :=
  if String.eqb (_get_api_key w) "" then log EvApiKeyMissingForLocation ;;; ret PNone
  else
    let name := "field_" ++ Num.str_of_int (clock w) in
    created <- create_polygon_from_geojson w (feature_of (square_around lat lon)) (Some name) ;;
    polyid <- (if truthy created then attr_get "id" created else ret PNone) ;;
    if negb (truthy polyid) then ret PNone
    else
      soil <- get_soil_by_polyid w polyid ;;
      weather <- get_weather_by_polyid w polyid ;;
      _store_agro_payloads soil weather ;;;
      (if cleanup
       then try_except (delete_polygon_by_id w polyid ;;; ret tt) (fun _ => ret tt)
       else ret tt) ;;;
      ret (PDict [("soil", soil); ("weather", weather)]).

(** ** Public API *)

(** What the two entry points return; [logs] is the log at that moment. *)
Inductive response : Type :=
  | Followup (questions : list string) (logs : list event)
  | Final (final : final_result) (logs : list event).

Definition handle_user_input (text : option string) : M response :=
  set_last_user_input (default "" text) ;;;
  log (EvReceived text) ;;;
  let plan := simple_planner text in
  log (EvPlannerSteps plan) ;;;
  mem <- get_memory ;;
  let missing := identify_missing_fields plan mem in
  match missing with
  | _ :: _ =>
      set_pending_questions missing ;;;
      log (EvMissingFields missing) ;;;
      logs <- get_logs ;;
      ret (Followup missing logs)
  | [] =>
      final <- execute_plan plan ;;
      log EvExecutionCompleted ;;;
      set_last_result final ;;;
      logs <- get_logs ;;
      ret (Final final logs)
  end.

(** The first loop of [provide_followup_answers]: store each answer under
    the field of its question. *)
Fixpoint store_answers (answers : list (string * pyval)) : M unit :=
  match answers with
  | [] => ret tt
  | (q_text, answer) :: rest =>
      let field := default (_safe_key_from_question q_text) (question_to_field q_text) in
      let parsed := _parse_answer_for_field field answer in
      store field parsed ;;;
      log (EvStored field parsed) ;;;
      store_answers rest
  end.

(** The location in memory read as a polygon identifier or as a
    coordinate pair. *)
Definition classify_location (w : World) : M unit :=
  mem <- get_memory ;;
  match mem !! "location" with
  | Some (PStr loc) =>
      if negb (Str.contains "," loc) && (6 <=? Str.len loc) then
        store "polyid" (PStr loc) ;;;
        log (EvLocationAsPolyid loc)
      else if Str.contains "," loc then
        try_except
          (match Str.split_on "," loc with
           | [lat_s; lon_s] =>
               lat <- lift (py_float (PStr (Str.strip lat_s))) ;;
               lon <- lift (py_float (PStr (Str.strip lon_s))) ;;
               agro <- fetch_agro_for_location w lat lon true ;;
               log (EvAgroFetched (truthy agro))
           | _ => raise ValueError
           end)
          (fun e => log (EvBadLocation loc e))
      else ret tt
  | _ => ret tt
  end.

(** Soil and weather of the polygon in memory, merged into it. *)
Definition enrich_from_polyid (w : World) : M unit :=
  mem <- get_memory ;;
  match mem !! "polyid" with
  | Some polyid =>
      if truthy polyid then
        soil <- get_soil_by_polyid w polyid ;;
        weather <- get_weather_by_polyid w polyid ;;
        _store_agro_payloads soil weather
      else ret tt
  | None => ret tt
  end.

(** The end of [provide_followup_answers]: plan again and finalize. *)
Definition recompute_final : M response :=
  text <- get_last_user_input ;;
  let plan := simple_planner (Some text) in
  final <- execute_plan plan ;;
  set_last_result final ;;;
  logs <- get_logs ;;
  ret (Final final logs).

(** The part of [provide_followup_answers] before that: the answers
    stored and the memory enriched. *)
Definition merge_answers (w : World) (answers : list (string * pyval)) : M unit :=
  store_answers answers ;;;
  classify_location w ;;;
  enrich_from_polyid w.

Definition provide_followup_answers (w : World) (answers : list (string * pyval)) : M response :=
  merge_answers w answers ;;;
  recompute_final.

(** A run that starts from an agent, with no request sent yet. *)
Definition start (a : Agent) : Run := MkRun a [].

(** A world without an API key, where every request fails to connect. *)
Definition offline : World := MkWorld "" 0 (fun _ _ => ConnectionError).

(** * The page *)

(** [frontend_app.py]: the questions of the agent are shown as widgets,
    and the values of the widgets are the answers handed back to it. *)

Module Frontend.

(** What the page gets from outside: the digest of [hashlib.md5], and for
    each widget, by its key, the number entered, the position of the option
    picked and the text typed. *)
Record Host : Type := MkHost {
  md5_hexdigest : string -> string;
  number_input : string -> float;
  selectbox : string -> nat;
  text_input : string -> string }.

Definition _stable_key (h : Host) (question : string) (index : nat) : string :=
  let short_hash := Num.str_take 8 (md5_hexdigest h question) in
  Num.str_of_int (Z.of_nat index) ++ "_" ++ short_hash.

Definition normalize_question (q : string) : string :=
  Str.lower (Str.join " " (Str.split_ws (Str.strip q))).

(** The loop of [dedupe_questions], from the set [seen]. *)
Fixpoint dedupe_from (questions : list string) (seen : gset string) : list string :=
  match questions with
  | [] => []
  | q :: rest =>
      let q_norm := normalize_question q in
      if decide (q_norm ∈ seen) then dedupe_from rest seen
      else q :: dedupe_from rest ({[q_norm]} ∪ seen)
  end.

Definition dedupe_questions (questions : list string) : list string :=
  dedupe_from questions ∅.

(** [s.split(sep)] for a separator of one character or more; [skip] counts
    the characters of a separator still to pass, [cur] is the part being
    read, reversed. *)
Fixpoint split_from (sep : string) (skip : nat) (s cur : string) : list string :=
  match s with
  | EmptyString => [Str.rev cur]
  | String c r =>
      match skip with
      | S k => split_from sep k r cur
      | O =>
          if String.prefix sep s
          then Str.rev cur :: split_from sep (String.length sep - 1) r ""
          else split_from sep 0 r (String c cur)
      end
  end.

Definition split_sep (sep s : string) : list string := split_from sep 0 s "".

(** The option of a select box the user picked; the first one is the
    preselected. *)
Definition selected (h : Host) (options : list string) (key : string) : string :=
  default (List.hd "" options) (options !! selectbox h key).

(** One turn of the loop of [ask_followups]: the value of the widget shown
    for question [q], the [i]-th.  Listing the saved polygons fails when
    they are no mapping. *)
Definition ask (h : Host) (memory : gmap string pyval) (i : nat) (q : string) : exn + pyval :=
  let key := _stable_key h q i in
  let q_lower := Str.lower q in
  if Str.contains "area" q_lower then inr (PFloat (number_input h key))
  else if Str.contains "location" q_lower
          || (Str.contains "lat" q_lower && Str.contains "lon" q_lower) then
    let pol_list := default (PDict []) (memory !! "polygons") in
    if truthy pol_list then
      match pol_list with
      | PDict ps =>
          let options :=
            "(Use polygon)" :: map (fun np => fst np ++ " -> " ++ py_str (snd np)) ps in
          let sel := selected h options (key ++ "_sel") in
          if negb (String.eqb sel "") && negb (String.eqb sel "(Use polygon)") then
            let chosen := Str.strip (List.last (split_sep "->" sel) "") in
            inr (PStr chosen)
          else inr (PStr (text_input h (key ++ "_txt")))
      | _ => inl AttributeError
      end
    else inr (PStr (text_input h key))
  else if Str.contains "ph" q_lower || Str.contains (Str.lower "soil pH") q_lower then
    inr (PFloat (number_input h key))
  else if Str.contains "moisture" q_lower then
    inr (PStr (selected h ["Low"; "Medium"; "High"] key))
  else if Str.contains "soil type" q_lower then
    inr (PStr (selected h ["clay"; "sandy"; "loam"; "silty"; "peaty"; "chalky"; "other"] key))
  else inr (PStr (text_input h key)).

(** The loop of [ask_followups] from question number [i] on. *)
Fixpoint ask_from (h : Host) (memory : gmap string pyval) (i : nat) (questions : list string)
    (responses : list (string * pyval)) : exn + list (string * pyval) :=
  match questions with
  | [] => inr responses
  | q :: rest =>
      match ask h memory i q with
      | inl e => inl e
      | inr val => ask_from h memory (S i) rest (dict_set q val responses)
      end
  end.

Definition ask_followups (h : Host) (memory : gmap string pyval) (questions : list string)
  : exn + list (string * pyval) :=
  ask_from h memory 0 (dedupe_questions questions) [].

End Frontend.

(** ** Vocabulary of the properties *)

(** The outcome of a coercion as the outcome of a call. *)
Definition outcome_of {A} (x : exn + A) : outcome A :=
  match x with
  | inl e => Raise e
  | inr a => Ret a
  end.

(** The inputs [read_inputs] returns, as a function of the memory. *)
Definition inputs_of_memory (mem : gmap string pyval) : exn + inputs :=
  match py_float (default (PInt 1) (mem !! "area_acres")) with
  | inl e => inl e
  | inr area =>
      match py_float (default (PFloat 6.5) (mem !! "ph")) with
      | inl e => inl e
      | inr ph =>
          let stated := Str.lower (py_str (default (PStr "medium") (mem !! "moisture"))) in
          let moisture :=
            match mem !! "soil_moisture" with
            | Some reading =>
                match py_float reading with
                | inr sm => moisture_of_reading sm
                | inl _ => stated
                end
            | None => stated
            end in
          inr (Inputs area (Str.lower (py_str (default (PStr "clay") (mem !! "soil_type"))))
                 ph moisture)
      end
  end.

(** The final result in a response, [None] for follow-up questions. *)
Definition final_of_response (o : outcome response) : outcome (option final_result) :=
  match o with
  | Ret (Final f _) => Ret (Some f)
  | Ret (Followup _ _) => Ret None
  | Raise e => Raise e
  end.

Definition is_final (o : outcome response) : bool :=
  match o with
  | Ret (Final _ _) => true
  | _ => false
  end.

(** What finalization returns from a memory. *)
Definition finalized (mem : gmap string pyval) : outcome (option final_result) :=
  outcome_of (sum_map id (fun i => Some (final_of_inputs i)) (inputs_of_memory mem)).

(** The moisture of a reading, by the three intervals of the specification. *)
Definition moisture_bucket (sm : float) : string :=
  if (sm <? 0.15)%float then "low"
  else if (0.15 <=? sm)%float && (sm <? 0.35)%float then "medium"
  else "high".

(** The five fields the user is asked for. *)
Definition canonical_fields : list string :=
  ["area_acres"; "soil_type"; "ph"; "moisture"; "location"].

(** The question [field_to_question] makes for the field no answer fills. *)
Definition q_crop_recommendation : string := "Please provide crop recommendation".

(** Whether the text makes the planner ask for the area first. *)
Definition mentions_area (text : option string) : bool :=
  let txt := Str.lower (default "" text) in
  Str.contains "acre" txt || Str.contains "area" txt.

(** Every field some step of a plan requires. *)
Definition all_required : gset string :=
  {[ "area_acres"; "soil_type"; "ph"; "moisture"; "location"; "crop_recommendation" ]}.

(** The position of the first [x] in [l]. *)
Fixpoint first_index (x : string) (l : list string) : option nat :=
  match l with
  | [] => None
  | y :: r => if String.eqb x y then Some 0%nat else S <$> first_index x r
  end.

(** The keys [_store_agro_payloads] writes. *)
Definition enrichment_key (k : string) : Prop :=
  k ∈ ["soil_moisture"; "soil_temp_k"; "agro_precip"; "agro_temp_k"; "agro_weather_ts"].

(** The value of field [k] in a payload that is a mapping, or a sequence
    starting with one. *)
Definition payload_field (k : string) (payload : pyval) : option pyval :=
  if truthy payload then
    match first_if_list payload with
    | PDict d => dict_get k d
    | _ => None
    end
  else None.

(** What the merge stores for a soil reading [v]. *)
Definition float_or_raw (v : pyval) : pyval :=
  match py_float v with
  | inr f => PFloat f
  | inl _ => v
  end.

Definition put (key : string) (o : option pyval) (m : gmap string pyval) : gmap string pyval :=
  match o with
  | Some v => <[key:=v]> m
  | None => m
  end.

(** The memory after a merge. *)
Definition merged (soil weather : pyval) (m : gmap string pyval) : gmap string pyval :=
  put "agro_weather_ts" (payload_field "ts" weather)
    (put "agro_temp_k" (payload_field "temperature" weather)
      (put "agro_precip" (payload_field "rain" weather)
        (put "soil_temp_k" (float_or_raw <$> payload_field "soil_temp" soil)
          (put "soil_moisture" (float_or_raw <$> payload_field "soil_moisture" soil) m)))).

(** The events of the coordinate path of [provide_followup_answers] and of
    the polygon calls it makes; each pass through that path logs one of
    the first two. *)
Definition coordinate_event (ev : event) : Prop :=
  match ev with
  | EvAgroFetched _ | EvBadLocation _ _ | EvApiKeyMissingForLocation
  | EvApiKeyMissing | EvEmptyFeatureCollection
  | EvPolygonCreated _ _ | EvPolygonCreateFailed | EvPolygonCreateError
  | EvPolygonDeleted _ | EvPolygonDeleteFailed | EvPolygonDeleteError => True
  | _ => False
  end.

Definition other_event (ev : event) : Prop := ¬ coordinate_event ev.


Definition no_request (q : request) : Prop := False.

(** [m] never raises. *)
Definition total {A} (m : M A) : Prop := ∀ r, ∃ a, fst (m r) = Ret a.

(** Whatever its outcome, [m] takes a state to one related to it by [R]. *)
Definition changes {A} (R : relation Run) (m : M A) : Prop := ∀ r, R r (snd (m r)).

(** The footprint of a computation: the keys of the memory it may write
    satisfy [K], the requests it sends [Q], the events it logs [E]; no key
    of the memory is removed. *)
Record footprint (K : string -> Prop) (Q : request -> Prop) (E : event -> Prop)
    (r r' : Run) : Prop := Footprint {
  fp_memory : ∀ k, ¬ K k -> memory (self r') !! k = memory (self r) !! k;
  fp_dom : dom (memory (self r)) ⊆ dom (memory (self r'));
  fp_sent : ∃ reqs, sent r' = (sent r ++ reqs)%list ∧ Forall Q reqs;
  fp_logs : ∃ evs, logs (self r') = (logs (self r) ++ evs)%list ∧ Forall E evs }.

(** No constraint on a key, a request or an event. *)
Definition anything {A} (x : A) : Prop := True.

(** The key under which [provide_followup_answers] stores the answer to a
    question. *)
Definition field_of_question (q_text : string) : string :=
  default (_safe_key_from_question q_text) (question_to_field q_text).

(** The six questions the planner can lead to. *)
Definition planner_questions : list string :=
  [q_area_acres; q_soil_type; q_ph; q_moisture; q_location; q_crop_recommendation].

(** A question that is ASCII text, or one of the agent's. *)
Definition plain_question (q_text : string) : bool :=
  Str.is_ascii q_text || existsb (String.eqb q_text) planner_questions.

(** Whether the answers of a mapping are ASCII text, under questions that
    are ASCII text or the agent's own: on these the functions on text
    above are those of Python. *)
Definition plain_answers (answers : list (string * pyval)) : bool :=
  forallb (fun qa => plain_question (fst qa) && Val.is_ascii (snd qa)) answers.

(** The fields of [all_required], as a list. *)
Definition required_fields : list string :=
  ["area_acres"; "soil_type"; "ph"; "moisture"; "location"; "crop_recommendation"].

(** The keys the polygon calls write, and those written after the answers
    are stored. *)
Definition gateway_key (k : string) : Prop :=
  k ∈ ["polygons"; "last_polygon"] ∨ enrichment_key k.

Definition merge_key (k : string) : Prop := k = "polyid" ∨ gateway_key k.

Definition polyid_key (k : string) : Prop := k = "polyid".

(** A request for the soil or the weather of a polygon. *)
Definition fetch_request (q : request) : Prop :=
  match q with
  | GetSoil _ | GetWeather _ => True
  | _ => False
  end.

(** The latitude and longitude a location with a comma is read as, or the
    exception that reading it raises. *)
Definition coordinates_of (loc : string) : exn + (float * float) :=
  match Str.split_on "," loc with
  | [lat_s; lon_s] =>
      match py_float (PStr (Str.strip lat_s)) with
      | inl e => inl e
      | inr lat =>
          match py_float (PStr (Str.strip lon_s)) with
          | inl e => inl e
          | inr lon => inr (lat, lon)
          end
      end
  | _ => inl ValueError
  end.

(** The first request of the coordinate path: a polygon around the point. *)
Definition square_request (w : World) (lat lon : float) : request :=
  CreatePolygon ("field_" ++ Num.str_of_int (clock w)) (feature_of (square_around lat lon)).

(** The state with one more event in the log. *)
Definition logged (ev : event) (r : Run) : Run :=
  MkRun (MkAgent (memory (self r)) (logs (self r) ++ [ev]) (pending_questions (self r))
           (last_user_input (self r)) (last_result (self r)))
    (sent r).

(** The memory after the answers are stored, one after the other. *)
Definition with_answers (answers : list (string * pyval)) (mem : gmap string pyval)
  : gmap string pyval :=
  fold_left
    (fun m qa =>
       <[field_of_question (fst qa) :=
           _parse_answer_for_field (field_of_question (fst qa)) (snd qa)]> m)
    answers mem.

(** The two numbers finalization needs, or the exception their conversion
    raises. *)
Definition numbers_of_memory (mem : gmap string pyval) : exn + (float * float) :=
  match py_float (default (PInt 1) (mem !! "area_acres")) with
  | inl e => inl e
  | inr area =>
      match py_float (default (PFloat 6.5) (mem !! "ph")) with
      | inl e => inl e
      | inr ph => inr (area, ph)
      end
  end.

(** [geojson.get("features", [])] *)
Definition features_of (geojson : pyval) : pyval :=
  match geojson with
  | PDict d => default (PList []) (dict_get "features" d)
  | _ => PList []
  end.

(** The inputs with another area, and with soil type and moisture in lower
    case. *)
Definition with_area (area : float) (i : inputs) : inputs :=
  Inputs area (in_soil_type i) (in_ph i) (in_moisture i).

Definition lowered (i : inputs) : inputs :=
  Inputs (in_area_acres i) (Str.lower (in_soil_type i)) (in_ph i) (Str.lower (in_moisture i)).

(** Numbers and text. *)
Definition scalar (v : pyval) : bool :=
  match v with
  | PInt _ | PFloat _ | PStr _ => true
  | _ => false
  end.

(** The characters [_safe_key_from_question] takes out. *)
Definition unsafe_characters : list ascii := [" "; "("; ")"; "/"; ","]%char.

(** The polygons the page can list: none, or a mapping. *)
Definition listable (mem : gmap string pyval) : Prop :=
  ∀ v, mem !! "polygons" = Some v -> truthy v = true -> ∃ ps, v = PDict ps.

(** *** Sample data *)

(** A world with a key, whose server knows one soil and one weather
    observation for every polygon. *)
Definition station : World :=
  MkWorld "key" 1700000000
    (fun _ req =>
       match req with
       | GetSoil _ =>
           Response true
             (Some (PDict [("soil_moisture", PFloat 0.10); ("soil_temp", PFloat 290.5)]))
       | GetWeather _ =>
           Response true
             (Some (PList [PDict [("rain", PDict [("3h", PFloat 0.4)]);
                                  ("temperature", PFloat 295.1);
                                  ("ts", PInt 1700000000)]]))
       | CreatePolygon _ _ => Response true (Some (PDict [("id", PStr "poly42")]))
       | DeletePolygon _ => Response true None
       end).

Definition five_answers : list (string * pyval) :=
  [ (q_area_acres, PStr "2");
    (q_soil_type, PStr "clay");
    (q_ph, PStr "6.8");
    (q_moisture, PStr "High");
    (q_location, PStr "farm") ].

(** The agent after the five answers, and after those and one more under
    the question text [crop recommendation]. *)
Definition answered_agent : Agent :=
  self (snd (provide_followup_answers offline five_answers (start new_agent))).

Definition overanswered_agent : Agent :=
  self (snd (provide_followup_answers offline
               (("crop recommendation", PStr "maize") :: five_answers)
               (start new_agent))).

(** An agent that knows a soil-moisture reading and a stated moisture. *)
Definition measured_agent : Agent :=
  MkAgent (<["soil_moisture" := PFloat 0.10]> (<["moisture" := PStr "high"]> ∅)) [] [] "" None.

(** A plan of one step and a memory that fills it. *)
Definition ph_plan : list step := [Step "call_crop_tool" (Some ["ph"])].

Definition ph_memory : gmap string pyval := {[ "ph" := PFloat 6.5 ]}.

(** A location answer that is a point, and one that is not. *)
Definition point_answer : list (string * pyval) := [(q_location, PStr "12.9716,77.5946")].

Definition words_answer : list (string * pyval) := [(q_location, PStr "north,field")].

(** Two answers, the pH before the moisture. *)
Definition ph_then_moisture : list (string * pyval) :=
  [(q_ph, PStr "6.8"); (q_moisture, PStr "High")].

(** A visitor of the page who enters 2 in every number field, picks the
    second option of every select box and types nothing. *)
Definition visitor : Frontend.Host :=
  Frontend.MkHost (fun _ => "d41d8cd98f00b204e9800998ecf8427e") (fun _ => 2%float)
    (fun _ => 1%nat) (fun _ => "").

(** A memory with one saved polygon. *)
Definition one_polygon : gmap string pyval :=
  {[ "polygons" := PDict [("north", PStr "poly42")] ]}.

(** * Properties *)

(** ** Strings and floats *)

Lemma string_app_inj_l (p a b : string) : p ++ a = p ++ b -> a = b.
Proof. induction p; simpl; intros H; [done | injection H; auto]. Qed.

Lemma SFcompare_swap x y : SFcompare y x = option_map CompOpp (SFcompare x y).
Proof.
  destruct x as [sx|sx| |sx mx ex], y as [sy|sy| |sy my ey]; simpl;
    repeat match goal with b : bool |- _ => destruct b end; simpl; try reflexivity.
  - rewrite (Z.compare_antisym ey ex). destruct (ey ?= ex)%Z; simpl; try reflexivity.
    change (PosDef.Pos.compare_cont Eq) with Pos.compare.
    rewrite (Pos.compare_antisym my mx). destruct (my ?= mx)%positive; reflexivity.
  - rewrite (Z.compare_antisym ey ex). destruct (ey ?= ex)%Z; simpl; try reflexivity.
    change (PosDef.Pos.compare_cont Eq) with Pos.compare.
    rewrite (Pos.compare_antisym my mx). destruct (my ?= mx)%positive; reflexivity.
Qed.

Lemma SFcompare_refl x : x <> S754_nan -> SFcompare x x = Some Eq.
Proof.
  destruct x as [s|s| |s m e]; simpl; try done; intros _; destruct s; try done.
  - rewrite Z.compare_refl. change (PosDef.Pos.compare_cont Eq) with Pos.compare.
    by rewrite Pos.compare_refl.
  - rewrite Z.compare_refl. change (PosDef.Pos.compare_cont Eq) with Pos.compare.
    by rewrite Pos.compare_refl.
Qed.

(** Among numbers, [not (x < y)] is [y <= x]. *)
Lemma ltb_false_leb (x y : float) :
  (x <? y)%float = false -> (x =? x)%float = true -> (y =? y)%float = true ->
  (y <=? x)%float = true.
Proof.
  rewrite FloatAxioms.ltb_spec, FloatAxioms.leb_spec, !FloatAxioms.eqb_spec.
  unfold SFltb, SFleb, SFeqb.
  rewrite (SFcompare_swap (Prim2SF x) (Prim2SF y)).
  destruct (SFcompare (Prim2SF x) (Prim2SF y)) as [[]|] eqn:E; simpl; try done.
  intros _ Hx Hy. exfalso.
  destruct (Prim2SF x) as [sx|sx| |sx mx ex], (Prim2SF y) as [sy|sy| |sy my ey];
    simpl in *; done.
Qed.

(** What is below a number is a number. *)
Lemma ltb_true_eqb_refl (x y : float) : (x <? y)%float = true -> (x =? x)%float = true.
Proof.
  rewrite FloatAxioms.ltb_spec, FloatAxioms.eqb_spec. unfold SFltb, SFeqb.
  intros H. rewrite SFcompare_refl; [done|]. intros E. by rewrite E in H.
Qed.

Lemma moisture_of_reading_spec sm : moisture_of_reading sm = moisture_bucket sm.
Proof.
  unfold moisture_of_reading, moisture_bucket.
  destruct (sm <? 0.15)%float eqn:E1; [done|].
  destruct (sm <? 0.35)%float eqn:E2; [|by rewrite andb_false_r].
  rewrite ltb_false_leb; [done|done| |done].
  eapply ltb_true_eqb_refl, E2.
Qed.

(** ** Field registry *)

Lemma assoc_In k l v : assoc k l = Some v -> In (k, v) l.
Proof.
  induction l as [|[k' v'] l IH]; simpl; [done|].
  destruct (String.eqb_spec k k'); intros; simplify_eq; auto.
Qed.

(** Two fields never share a question. *)
Lemma field_to_question_inj a b : field_to_question a = field_to_question b -> a = b.
Proof.
  unfold field_to_question.
  destruct (assoc a _) as [va|] eqn:Ea; destruct (assoc b _) as [vb|] eqn:Eb; simpl.
  - apply assoc_In in Ea, Eb. simpl in *. intros ->.
    intuition (simplify_eq; try done).
  - apply assoc_In in Ea. simpl in *. intros ->. intuition (simplify_eq; try done).
  - apply assoc_In in Eb. simpl in *. intros <-. intuition (simplify_eq; try done).
  - apply string_app_inj_l.
Qed.

(** ** Missing-field resolver *)

Lemma first_index_elem x l : x ∈ l -> ∃ a, first_index x l = Some a.
Proof.
  induction l as [|y l IH]; [by intros ?%elem_of_nil|].
  intros [->|Hin]%elem_of_cons; simpl.
  - rewrite String.eqb_refl. eauto.
  - destruct (String.eqb x y); [eauto|]. destruct (IH Hin) as [a ->]. simpl. eauto.
Qed.

Lemma dedupe_elem q missing seen :
  q ∈ dedupe_questions missing seen
  ↔ ∃ m, q = field_to_question m ∧ m ∈ missing ∧ m ∉ seen.
Proof.
  revert seen. induction missing as [|m r IH]; intros seen; simpl.
  - split; [by intros ?%elem_of_nil | by intros (? & _ & ?%elem_of_nil & _)].
  - case_decide as Hm.
    + rewrite IH. split.
      * intros (m' & -> & ? & ?). exists m'. by rewrite elem_of_cons; auto.
      * intros (m' & -> & [->|?]%elem_of_cons & ?); [done|]. eauto.
    + rewrite elem_of_cons, IH. split.
      * intros [->|(m' & -> & ? & Hn)].
        -- exists m. rewrite elem_of_cons. auto.
        -- exists m'. rewrite elem_of_cons. split; [done|]. split; [auto|].
           intros ?. apply Hn, elem_of_union. auto.
      * intros (m' & -> & [->|?]%elem_of_cons & Hn); [by left|].
        destruct (decide (m' = m)) as [->|Hne]; [by left|]. right. exists m'.
        split; [done|]. split; [done|].
        intros [?%elem_of_singleton|?]%elem_of_union; done.
Qed.

Lemma dedupe_NoDup missing seen : NoDup (dedupe_questions missing seen).
Proof.
  revert seen. induction missing as [|m r IH]; intros seen; simpl; [constructor|].
  case_decide; [apply IH|]. constructor; [|apply IH].
  rewrite dedupe_elem. intros (m' & Heq%field_to_question_inj & _ & Hn).
  apply Hn, elem_of_union. left. by apply elem_of_singleton.
Qed.

Lemma dedupe_order missing seen i j q1 q2 :
  dedupe_questions missing seen !! i = Some q1 ->
  dedupe_questions missing seen !! j = Some q2 ->
  (i < j)%nat ->
  ∃ a b, first_index q1 (map field_to_question missing) = Some a
       ∧ first_index q2 (map field_to_question missing) = Some b ∧ (a < b)%nat.
Proof.
  revert seen i j. induction missing as [|m r IH]; intros seen i j; simpl; [done|].
  assert (Hne : ∀ s q k, dedupe_questions r s !! k = Some q -> m ∈ s ->
                 String.eqb q (field_to_question m) = false).
  { intros s q k Hk Hm. apply String.eqb_neq. intros ->.
    apply list_elem_of_lookup_2 in Hk.
    apply dedupe_elem in Hk as (m' & ?%field_to_question_inj & _ & ?). by subst. }
  assert (Hin : m ∈ ({[m]} ∪ seen : gset string)).
  { apply elem_of_union. left. by apply elem_of_singleton. }
  case_decide as Hm.
  - intros H1 H2 Hlt. destruct (IH _ _ _ H1 H2 Hlt) as (a & b & -> & -> & ?).
    rewrite (Hne _ _ _ H1 Hm), (Hne _ _ _ H2 Hm). simpl.
    exists (S a), (S b). repeat split; lia.
  - destruct i as [|i], j as [|j]; simpl; try lia.
    + intros [= <-] H2 _. rewrite String.eqb_refl, (Hne _ _ _ H2 Hin).
      apply list_elem_of_lookup_2 in H2. apply dedupe_elem in H2 as (m' & -> & Hr & _).
      destruct (first_index_elem (field_to_question m') (map field_to_question r)) as [b ->].
      { apply list_elem_of_fmap. eauto. }
      simpl. exists 0%nat, (S b). repeat split; lia.
    + intros H1 H2 Hlt. destruct (IH _ _ _ H1 H2 ltac:(lia)) as (a & b & -> & -> & ?).
      rewrite (Hne _ _ _ H1 Hin), (Hne _ _ _ H2 Hin).
      simpl. exists (S a), (S b). repeat split; lia.
Qed.

Lemma filter_eq_absent (x : string) (l : list string) : x ∉ l -> filter (eq x) l = [].
Proof.
  induction l as [|y l IH]; [done|].
  intros [Hxy Hl]%not_elem_of_cons. rewrite filter_cons, decide_False by done. auto.
Qed.

Lemma once_of_NoDup (x : string) (l : list string) :
  NoDup l -> x ∈ l -> length (filter (eq x) l) = 1%nat.
Proof.
  induction 1 as [|y l Hy Hl IH]; [by intros ?%elem_of_nil|].
  rewrite filter_cons. intros [->|Hin]%elem_of_cons.
  - rewrite decide_True, filter_eq_absent by done. done.
  - rewrite decide_False by (intros ->; done). auto.
Qed.

Lemma missing_fields_elem plan (mem : gmap string pyval) st F :
  st ∈ plan -> F ∈ step_requires st -> mem !! F = None ->
  Str.replace "_" " " F ∈ missing_fields plan mem.
Proof.
  intros Hst HF Hm. unfold missing_fields.
  apply list_elem_of_In, in_flat_map. exists st. split; [by apply list_elem_of_In|].
  apply list_elem_of_In, list_elem_of_fmap. exists F. split; [done|].
  by apply list_elem_of_filter.
Qed.

Lemma build_plan_step text :
  Step "build_plan" (Some ["crop_recommendation"]) ∈ simple_planner text.
Proof. unfold simple_planner. do 2 apply list_elem_of_further. apply list_elem_of_here. Qed.

Lemma crop_recommendation_asked text (mem : gmap string pyval) :
  mem !! "crop_recommendation" = None ->
  q_crop_recommendation ∈ identify_missing_fields (simple_planner text) mem.
Proof.
  intros Hm. apply dedupe_elem. exists "crop recommendation". split; [done|].
  split; [|apply not_elem_of_empty].
  apply (missing_fields_elem _ _ _ "crop_recommendation" (build_plan_step text)); [|done].
  apply list_elem_of_here.
Qed.

(** ** Reasoning about computations *)

Section Combinators.
Context {A B : Type}.

Lemma total_ret (a : A) : total (ret a).
Proof. intros r. by exists a. Qed.

Lemma total_bind (m : M A) (k : A -> M B) :
  total m -> (∀ a, total (k a)) -> total (bind m k).
Proof.
  intros Hm Hk r. unfold bind. destruct (Hm r) as [a Ha].
  destruct (m r) as [[a'|e] r']; simpl in Ha; [|done]. apply Hk.
Qed.

Lemma total_try_except (m : M A) (h : exn -> M A) :
  (∀ e, total (h e)) -> total (try_except m h).
Proof.
  intros Hh r. unfold try_except. destruct (m r) as [[a|e] r']; [by exists a|apply Hh].
Qed.

Lemma total_on_agent f : total (on_agent f).
Proof. intros r. by exists tt. Qed.

Lemma bind_fst (m : M A) (k : A -> M B) r :
  fst (bind m k r) =
    match fst (m r) with
    | Ret a => fst (k a (snd (m r)))
    | Raise e => Raise e
    end.
Proof. unfold bind. by destruct (m r) as [[a|e] r']. Qed.

Lemma bind_unit (m : M unit) (k : unit -> M B) r :
  total m -> bind m k r = k tt (snd (m r)).
Proof.
  intros Hm. unfold bind. destruct (Hm r) as [[] H].
  destruct (m r) as [[[]|e] r']; simpl in *; done.
Qed.

Context (R : relation Run) `{!PreOrder R}.

Lemma changes_ret (a : A) : changes R (ret a).
Proof. intros r. simpl. reflexivity. Qed.

Lemma changes_raise (e : exn) : changes R (@raise A e).
Proof. intros r. simpl. reflexivity. Qed.

Lemma changes_lift (x : exn + A) : changes R (lift x).
Proof. destruct x; [apply changes_raise | apply changes_ret]. Qed.

Lemma changes_bind (m : M A) (k : A -> M B) :
  changes R m -> (∀ a, changes R (k a)) -> changes R (bind m k).
Proof.
  intros Hm Hk r. unfold bind. specialize (Hm r).
  destruct (m r) as [[a|e] r']; simpl in *; [|done].
  etrans; [done|apply Hk].
Qed.

Lemma changes_try_except (m : M A) (h : exn -> M A) :
  changes R m -> (∀ e, changes R (h e)) -> changes R (try_except m h).
Proof.
  intros Hm Hh r. unfold try_except. specialize (Hm r).
  destruct (m r) as [[a|e] r']; simpl in *; [done|].
  etrans; [done|apply Hh].
Qed.
End Combinators.

#[global] Instance footprint_preorder K Q E : PreOrder (footprint K Q E).
Proof.
  split.
  - intros r. split; [done|done| |]; exists []; by rewrite app_nil_r.
  - intros r1 r2 r3 [M1 D1 (q1 & S1 & F1) (e1 & L1 & G1)]
      [M2 D2 (q2 & S2 & F2) (e2 & L2 & G2)].
    split.
    + intros k Hk. by rewrite M2, M1.
    + by etrans.
    + exists (q1 ++ q2)%list. rewrite S2, S1, app_assoc. split; [done|by apply Forall_app].
    + exists (e1 ++ e2)%list. rewrite L2, L1, app_assoc. split; [done|by apply Forall_app].
Qed.

Section Footprints.
Context (K : string -> Prop) (Q : request -> Prop) (E : event -> Prop).

Lemma changes_store k v : K k -> changes (footprint K Q E) (store k v).
Proof.
  intros Hk r. split; simpl.
  - intros k' Hk'. apply lookup_insert_ne. by intros ->.
  - rewrite dom_insert_L. apply union_subseteq_r.
  - exists []. by rewrite app_nil_r.
  - exists []. by rewrite app_nil_r.
Qed.

Lemma changes_log ev : E ev -> changes (footprint K Q E) (log ev).
Proof.
  intros Hev r. split; simpl; [done|done| |].
  - exists []. by rewrite app_nil_r.
  - exists [ev]. split; [done|by constructor].
Qed.

Lemma changes_http w req : Q req -> changes (footprint K Q E) (http w req).
Proof.
  intros Hq r. split; simpl; [done|done| |].
  - exists [req]. split; [done|by constructor].
  - exists []. by rewrite app_nil_r.
Qed.

Lemma changes_get_memory : changes (footprint K Q E) get_memory.
Proof. intros r. simpl. reflexivity. Qed.

Lemma changes_get_logs : changes (footprint K Q E) get_logs.
Proof. intros r. simpl. reflexivity. Qed.

Lemma changes_get_last_user_input : changes (footprint K Q E) get_last_user_input.
Proof. intros r. simpl. reflexivity. Qed.

Lemma changes_set_last_result f : changes (footprint K Q E) (set_last_result f).
Proof. intros r. split; simpl; [done|done| |]; exists []; by rewrite app_nil_r. Qed.

Lemma changes_set_last_user_input s : changes (footprint K Q E) (set_last_user_input s).
Proof. intros r. split; simpl; [done|done| |]; exists []; by rewrite app_nil_r. Qed.

Lemma changes_set_pending_questions qs :
  changes (footprint K Q E) (set_pending_questions qs).
Proof. intros r. split; simpl; [done|done| |]; exists []; by rewrite app_nil_r. Qed.
End Footprints.

(** One step along the structure of [m] in a goal [changes (footprint K Q E) m];
    what is left are the side conditions on keys, requests and events. *)
Ltac footprint_step :=
  lazymatch goal with
  | |- changes _ (bind _ _) => apply changes_bind; [apply _| |intros ?]
  | |- changes _ (try_except _ _) => apply changes_try_except; [apply _| |intros ?]
  | |- changes _ (ret _) => apply changes_ret; apply _
  | |- changes _ (raise _) => apply changes_raise; apply _
  | |- changes _ (lift _) => apply changes_lift; apply _
  | |- changes _ get_memory => apply changes_get_memory
  | |- changes _ get_logs => apply changes_get_logs
  | |- changes _ get_last_user_input => apply changes_get_last_user_input
  | |- changes _ (set_last_result _) => apply changes_set_last_result
  | |- changes _ (set_last_user_input _) => apply changes_set_last_user_input
  | |- changes _ (set_pending_questions _) => apply changes_set_pending_questions
  | |- changes _ (store _ _) => apply changes_store
  | |- changes _ (log _) => apply changes_log
  | |- changes _ (http _ _) => apply changes_http
  | |- changes _ (match ?x with _ => _ end) => destruct x
  | |- changes _ (let _ := _ in _) => cbv zeta
  end.

Ltac footprint := repeat footprint_step.

(** The same for a goal [total m]. *)
Ltac totality_step :=
  lazymatch goal with
  | |- total (bind _ _) => apply total_bind; [|intros ?]
  | |- total (try_except _ _) => apply total_try_except; intros ?
  | |- total (ret _) => apply total_ret
  | |- total (store _ _) => apply total_on_agent
  | |- total (log _) => apply total_on_agent
  | |- total get_memory => intros ?; eexists; reflexivity
  | |- total (match ?x with _ => _ end) => destruct x
  | |- total (let _ := _ in _) => cbv zeta
  end.

Ltac totality := repeat totality_step.

(** The side condition that an event is none of the coordinate path. *)
Ltac quiet := unfold other_event; simpl; tauto.

Lemma Forall_False {A} (l : list A) : Forall (fun _ => False) l -> l = [].
Proof. destruct 1; done. Qed.

(** ** Execution *)

Lemma read_inputs_fst r : fst (read_inputs r) = outcome_of (inputs_of_memory (memory (self r))).
Proof.
  unfold read_inputs, inputs_of_memory, outcome_of, bind, try_except, lift, get_memory, log,
    on_agent, ret, raise.
  cbn [fst snd self memory].
  destruct (py_float (default (PInt 1) _)); [done|]. cbn [fst snd self memory].
  destruct (py_float (default (PFloat _) _)); [done|]. cbn [fst snd self memory].
  destruct (memory (self r) !! "soil_moisture") as [reading|]; [|done].
  destruct (py_float reading); done.
Qed.

Lemma execute_plan_fst plan r :
  fst (execute_plan plan r) =
    outcome_of (sum_map id final_of_inputs (inputs_of_memory (memory (self r)))).
Proof.
  unfold execute_plan, bind. pose proof (read_inputs_fst r) as H.
  destruct (read_inputs r) as [[i|e] r']; simpl in H;
    destruct (inputs_of_memory _); simplify_eq/=; done.
Qed.

Lemma execute_plan_logs plan r i :
  fst (read_inputs r) = Ret i ->
  EvCropTool (crop_recommendation_tool i) ∈ logs (self (snd (execute_plan plan r))).
Proof.
  intros H. unfold execute_plan, bind. destruct (read_inputs r) as [[i'|e] r']; simplify_eq/=.
  rewrite !elem_of_app, !list_elem_of_singleton. auto.
Qed.

(** Finalization writes no key, sends nothing and logs only its inputs. *)
Lemma execute_plan_footprint K Q plan :
  changes (footprint K Q other_event) (execute_plan plan).
Proof. unfold execute_plan, read_inputs. footprint; quiet. Qed.

Lemma recompute_final_footprint K Q : changes (footprint K Q other_event) recompute_final.
Proof. unfold recompute_final, execute_plan, read_inputs. footprint; quiet. Qed.

Lemma inputs_when_coerced (mem : gmap string pyval) area ph :
  py_float (default (PInt 1) (mem !! "area_acres")) = inr area ->
  py_float (default (PFloat 6.5) (mem !! "ph")) = inr ph ->
  ∃ i, inputs_of_memory mem = inr i ∧ in_area_acres i = area ∧ in_ph i = ph ∧
       in_soil_type i = Str.lower (py_str (default (PStr "clay") (mem !! "soil_type"))) ∧
       in_moisture i =
         match mem !! "soil_moisture" with
         | Some reading =>
             match py_float reading with
             | inr sm => moisture_of_reading sm
             | inl _ => Str.lower (py_str (default (PStr "medium") (mem !! "moisture")))
             end
         | None => Str.lower (py_str (default (PStr "medium") (mem !! "moisture")))
         end.
Proof. intros Ha Hp. unfold inputs_of_memory. rewrite Ha, Hp. eexists. by repeat split. Qed.

(** ** The two entry points *)

Lemma recompute_final_result r :
  final_of_response (fst (recompute_final r)) = finalized (memory (self r)).
Proof.
  unfold recompute_final, finalized. rewrite bind_fst. cbn [get_last_user_input fst snd].
  rewrite bind_fst, execute_plan_fst.
  destruct (inputs_of_memory _); done.
Qed.

Lemma handle_user_input_result text r :
  final_of_response (fst (handle_user_input text r)) =
    match identify_missing_fields (simple_planner text) (memory (self r)) with
    | [] => finalized (memory (self r))
    | _ :: _ => Ret None
    end.
Proof.
  unfold handle_user_input, finalized.
  rewrite !bind_fst. cbn [set_last_user_input log on_agent get_memory fst snd self memory].
  destruct (identify_missing_fields _ _) as [|q qs]; [|done].
  rewrite bind_fst, execute_plan_fst. cbn [self memory].
  destruct (inputs_of_memory _); done.
Qed.

Lemma handle_user_input_questions text r :
  identify_missing_fields (simple_planner text) (memory (self r)) <> [] ->
  ∃ l, fst (handle_user_input text r) =
         Ret (Followup (identify_missing_fields (simple_planner text) (memory (self r))) l).
Proof.
  intros Hne. unfold handle_user_input.
  rewrite !bind_fst. cbn [set_last_user_input log on_agent get_memory fst snd self memory].
  destruct (identify_missing_fields _ _) as [|q qs]; [done|]. eexists. reflexivity.
Qed.

Lemma followup_when_unknown text r :
  memory (self r) !! "crop_recommendation" = None ->
  ∃ qs l, fst (handle_user_input text r) = Ret (Followup qs l) ∧ q_crop_recommendation ∈ qs.
Proof.
  intros Hm. pose proof (crop_recommendation_asked text _ Hm) as Hq.
  destruct (handle_user_input_questions text r) as [l Hl].
  { intros E. rewrite E in Hq. by apply elem_of_nil in Hq. }
  eauto.
Qed.

(** ** Enrichment *)

Lemma store_agro_footprint Q E soil weather :
  E EvStoredAgro -> (∀ e, E (EvStoreAgroError e)) ->
  changes (footprint enrichment_key Q E) (_store_agro_payloads soil weather).
Proof.
  intros H1 H2. unfold _store_agro_payloads, when_key, store_float_or_raw.
  footprint; try done; unfold enrichment_key;
    rewrite !elem_of_cons; auto 10.
Qed.

(** The merge as one equation: it returns, and the memory is [merged]. *)
Lemma store_agro_run soil weather r :
  _store_agro_payloads soil weather r =
    (Ret tt,
     MkRun (MkAgent (merged soil weather (memory (self r))) (logs (self r) ++ [EvStoredAgro])
              (pending_questions (self r)) (last_user_input (self r)) (last_result (self r)))
       (sent r)).
Proof.
  unfold _store_agro_payloads, merged, payload_field, float_or_raw, when_key, store_float_or_raw.
  unfold try_except, bind, lift, store, log, on_agent, ret, raise.
  destruct (truthy soil); [destruct (first_if_list soil)|];
    (destruct (truthy weather); [destruct (first_if_list weather)|]);
    simpl; try reflexivity;
    repeat match goal with
      | |- context [dict_get ?k ?d] => destruct (dict_get k d); simpl
      | |- context [py_float ?v] => destruct (py_float v); simpl
      end; reflexivity.
Qed.




(** ** Follow-up answers *)

Lemma total_store_answers answers : total (store_answers answers).
Proof. induction answers as [|[q a] rest IH]; simpl; totality. done. Qed.

Lemma total_store_agro soil weather : total (_store_agro_payloads soil weather).
Proof. unfold _store_agro_payloads. totality. Qed.

Lemma total_classify_location w : total (classify_location w).
Proof. unfold classify_location. totality. Qed.

Lemma total_get_soil w p : total (get_soil_by_polyid w p).
Proof. unfold get_soil_by_polyid. totality. Qed.

Lemma total_get_weather w p : total (get_weather_by_polyid w p).
Proof. unfold get_weather_by_polyid. totality. Qed.

Lemma total_enrich_from_polyid w : total (enrich_from_polyid w).
Proof.
  unfold enrich_from_polyid. totality;
    auto using total_get_soil, total_get_weather, total_store_agro.
Qed.

Lemma total_merge_answers w answers : total (merge_answers w answers).
Proof.
  unfold merge_answers. totality;
    auto using total_store_answers, total_classify_location, total_enrich_from_polyid.
Qed.

Lemma merge_answers_run w answers r :
  merge_answers w answers r = (Ret tt, snd (merge_answers w answers r)).
Proof.
  destruct (total_merge_answers w answers r) as [[] H].
  destruct (merge_answers w answers r) as [o r']. simpl in *. by subst.
Qed.

Lemma store_answers_footprint K answers :
  (∀ k, K k) ->
  changes (footprint K no_request other_event) (store_answers answers).
Proof.
  intros HK. induction answers as [|[q a] rest IH]; simpl; footprint; try done. quiet.
Qed.

Lemma store_answers_sent answers r : sent (snd (store_answers answers r)) = sent r.
Proof.
  destruct (store_answers_footprint (fun _ => True) answers ltac:(done) r)
    as [_ _ (reqs & -> & ->%Forall_False) _].
  by rewrite app_nil_r.
Qed.


(** * The claims *)

(** C1.  The entry points can raise.  An answer to the area question that is
    no number is kept as text by the normalizer, and finalization then
    converts it with an unguarded [float]: on a new agent,
    [provide_followup_answers({"Area in acres (e.g., 2)": "abc"})] stores
    the text ["abc"] under [area_acres] and raises [ValueError], in every
    world. *)
Theorem C1_unparsed_area_raises (w : World) :
  let run := provide_followup_answers w [(q_area_acres, PStr "abc")] (start new_agent) in
  fst run = Raise ValueError ∧
  memory (self (snd run)) !! "area_acres" = Some (PStr "abc").
Proof. split; vm_compute; reflexivity. Qed.

(** C2, as amended.  For every text, [handle_user_input] on a new agent
    returns follow-up questions, the question for [crop_recommendation]
    among them; the plan always has the step that requires
    [crop_recommendation]; and the same answer is given from every state
    whose memory lacks that key. *)
Theorem C2_fresh_agent_asks :
  (∀ text, ∃ qs l,
      fst (handle_user_input text (start new_agent)) = Ret (Followup qs l)
      ∧ q_crop_recommendation ∈ qs) ∧
  (∀ text, Step "build_plan" (Some ["crop_recommendation"]) ∈ simple_planner text) ∧
  (∀ text r, memory (self r) !! "crop_recommendation" = None ->
      ∃ qs l, fst (handle_user_input text r) = Ret (Followup qs l)
              ∧ q_crop_recommendation ∈ qs).
Proof.
  split; [|split].
  - intros text. by apply followup_when_unknown.
  - apply build_plan_step.
  - apply followup_when_unknown.
Qed.

(** C2 at an agent that has answered the five questions. *)
Lemma C2_asks_after_five_answers :
  memory answered_agent !! "crop_recommendation" = None ∧
  ∃ qs l,
    fst (handle_user_input (Some "hello") (start answered_agent)) = Ret (Followup qs l)
    ∧ q_crop_recommendation ∈ qs.
Proof.
  split; [vm_compute; reflexivity|].
  apply (proj2 (proj2 C2_fresh_agent_asks)). vm_compute. reflexivity.
Defined.

(** C2 as stated fails: an answer under the question text
    [crop recommendation] is stored under the key [crop_recommendation],
    after which nothing is missing and [handle_user_input] finalizes. *)
Lemma C2_key_can_be_written :
  memory overanswered_agent !! "crop_recommendation" = Some (PStr "maize") ∧
  identify_missing_fields (simple_planner (Some "hello")) (memory overanswered_agent) = [] ∧
  is_final (fst (handle_user_input (Some "hello") (start overanswered_agent))) = true.
Proof. repeat split; vm_compute; reflexivity. Qed.

(** C3, as amended.  [provide_followup_answers] stores and enriches without
    raising, reaching a state [r1], and then finalizes from [r1] whatever
    is missing: its result is the finalization of the memory of [r1].  When
    the resolver reports nothing missing in [r1], [handle_user_input] with
    the last text returns the same final result from [r1]; when it reports
    something, [handle_user_input] asks and [provide_followup_answers]
    does not. *)
Theorem C3_followup_answers_always_finalize
    (w : World) (answers : list (string * pyval)) (r : Run) :
  let r1 := snd (merge_answers w answers r) in
  let text := Some (last_user_input (self r1)) in
  merge_answers w answers r = (Ret tt, r1) ∧
  provide_followup_answers w answers r = recompute_final r1 ∧
  final_of_response (fst (provide_followup_answers w answers r)) = finalized (memory (self r1)) ∧
  match identify_missing_fields (simple_planner text) (memory (self r1)) with
  | [] =>
      final_of_response (fst (handle_user_input text r1))
        = final_of_response (fst (provide_followup_answers w answers r))
  | _ :: _ =>
      final_of_response (fst (handle_user_input text r1)) = Ret None
  end.
Proof.
  intros r1 text.
  assert (Hrun : provide_followup_answers w answers r = recompute_final r1).
  { unfold provide_followup_answers, bind. by rewrite merge_answers_run. }
  split; [apply merge_answers_run|]. split; [done|].
  rewrite Hrun, recompute_final_result. split; [done|].
  rewrite handle_user_input_result. by destruct (identify_missing_fields _ _).
Qed.

(** C3 as stated fails: on a new agent six questions are outstanding and
    [handle_user_input] asks them, yet [provide_followup_answers] with no
    answer returns a final result. *)
Lemma C3_finalizes_with_fields_missing :
  identify_missing_fields (simple_planner (Some "")) (memory new_agent)
    = [q_soil_type; q_ph; q_moisture; q_location; q_area_acres; q_crop_recommendation] ∧
  final_of_response (fst (handle_user_input (Some "") (start new_agent))) = Ret None ∧
  is_final (fst (provide_followup_answers offline [] (start new_agent))) = true.
Proof. repeat split; vm_compute; reflexivity. Qed.

(** C4, as amended.  The first step of the plan requires [soil_type], [ph],
    [moisture] and [location], preceded by [area_acres] exactly when the
    lowered text contains [acre] or [area].  Over all steps the required
    fields are always the same six, [area_acres] and [crop_recommendation]
    included.  When the memory has no [area_acres] and the pH converts,
    finalization reads its inputs with an area of 1. *)
Theorem C4_planner_required_fields (text : option string) :
  step_requires <$> head (simple_planner text)
    = Some ((if mentions_area text then ["area_acres"] else [])
              ++ ["soil_type"; "ph"; "moisture"; "location"])%list ∧
  list_to_set (flat_map step_requires (simple_planner text)) = all_required ∧
  (∀ r ph,
      memory (self r) !! "area_acres" = None ->
      py_float (default (PFloat 6.5) (memory (self r) !! "ph")) = inr ph ->
      ∃ i, fst (read_inputs r) = Ret i ∧ in_area_acres i = 1%float).
Proof.
  split; [done|]. split.
  - unfold simple_planner, all_required. cbn [flat_map step_requires requires default id].
    destruct (_ || _); cbn [app list_to_set]; apply set_eq; intros x;
      rewrite ?elem_of_union, ?elem_of_singleton, ?elem_of_empty; tauto.
  - intros r ph Ha Hp.
    destruct (inputs_when_coerced (memory (self r)) 1%float ph) as (i & Hi & ? & _);
      [by rewrite Ha|done|].
    exists i. by rewrite read_inputs_fst, Hi.
Qed.

(** C4 at a new agent: the area read is 1. *)
Lemma C4_default_area_on_new_agent :
  memory new_agent !! "area_acres" = None ∧
  py_float (default (PFloat 6.5) (memory new_agent !! "ph")) = inr 6.5%float ∧
  ∃ i, fst (read_inputs (start new_agent)) = Ret i ∧ in_area_acres i = 1%float.
Proof.
  split; [reflexivity|]. split; [reflexivity|].
  apply (proj2 (proj2 (C4_planner_required_fields None)) (start new_agent) 6.5%float);
    reflexivity.
Defined.

(** C4 as stated fails: the text [hello] contains neither token, and the
    steps of its plan still require [area_acres], and
    [crop_recommendation] besides. *)
Lemma C4_area_required_without_token :
  mentions_area (Some "hello") = false ∧
  flat_map step_requires (simple_planner (Some "hello"))
    = ["soil_type"; "ph"; "moisture"; "location";
       "soil_type"; "ph"; "area_acres"; "moisture";
       "crop_recommendation"].
Proof. split; vm_compute; reflexivity. Qed.

(** C5.  When the memory holds a [soil_moisture] that converts to the float
    [sm], and area and pH convert, finalization reads the moisture [low]
    for [sm < 0.15], [medium] for [0.15 <= sm < 0.35] and [high]
    otherwise, whatever moisture is stored; these are the inputs the
    decision engine is called with and the final result is built from.
    A reading of 0.10 gives [low]. *)
Theorem C5_soil_moisture_overrides
    (plan : list step) (r : Run) (reading : pyval) (sm area ph : float) :
  let mem := memory (self r) in
  mem !! "soil_moisture" = Some reading ->
  py_float reading = inr sm ->
  py_float (default (PInt 1) (mem !! "area_acres")) = inr area ->
  py_float (default (PFloat 6.5) (mem !! "ph")) = inr ph ->
  let i := Inputs area (Str.lower (py_str (default (PStr "clay") (mem !! "soil_type")))) ph
             (moisture_bucket sm) in
  fst (read_inputs r) = Ret i ∧
  fst (execute_plan plan r) = Ret (final_of_inputs i) ∧
  EvCropTool (crop_recommendation_tool i) ∈ logs (self (snd (execute_plan plan r))) ∧
  moisture_bucket 0.10 = "low".
Proof.
  intros mem Hsm Hr Ha Hp i.
  destruct (inputs_when_coerced mem area ph Ha Hp) as ([a s p m] & Hi & ? & ? & ? & Hm).
  rewrite Hsm, Hr, moisture_of_reading_spec in Hm. simpl in *. subst.
  assert (Hread : fst (read_inputs r) = Ret i)
    by (by rewrite read_inputs_fst; fold mem; rewrite Hi).
  repeat split; [done| |by apply execute_plan_logs].
  rewrite execute_plan_fst. fold mem. by rewrite Hi.
Qed.

(** C5 at an agent whose stated moisture is [high] and whose reading is
    0.10: the moisture read is [low]. *)
Lemma C5_reading_beats_stated_moisture :
  memory measured_agent !! "moisture" = Some (PStr "high") ∧
  fst (read_inputs (start measured_agent)) = Ret (Inputs 1 "clay" 6.5 "low").
Proof.
  split; [reflexivity|].
  apply (C5_soil_moisture_overrides [] (start measured_agent) (PFloat 0.10) 0.10 1 6.5);
    reflexivity.
Defined.

(** C6.  For each of the five canonical fields [k],
    [question_to_field (field_to_question k)] is [k]. *)
Theorem C6_question_round_trip :
  Forall (fun k => question_to_field (field_to_question k) = Some k) canonical_fields.
Proof. repeat constructor. Qed.



(** C8, as amended.  For every soil and weather payload the merge returns
    without raising.  A field absent from its payload leaves its key as it
    was.  A soil field that is present is stored: as a float when its
    value converts, and as the value itself when it does not.  A weather
    field that is present is stored as it is. *)
Theorem C8_merge_stores_raw_values (soil weather : pyval) (r : Run) :
  let m := memory (self r) in
  let m' := memory (self (snd (_store_agro_payloads soil weather r))) in
  fst (_store_agro_payloads soil weather r) = Ret tt ∧
  m' !! "soil_moisture"
    = from_option (fun v => Some (float_or_raw v)) (m !! "soil_moisture")
        (payload_field "soil_moisture" soil) ∧
  m' !! "soil_temp_k"
    = from_option (fun v => Some (float_or_raw v)) (m !! "soil_temp_k")
        (payload_field "soil_temp" soil) ∧
  m' !! "agro_precip" = from_option Some (m !! "agro_precip") (payload_field "rain" weather) ∧
  m' !! "agro_temp_k"
    = from_option Some (m !! "agro_temp_k") (payload_field "temperature" weather) ∧
  m' !! "agro_weather_ts"
    = from_option Some (m !! "agro_weather_ts") (payload_field "ts" weather).
Proof.
  intros m m'. unfold m'. rewrite store_agro_run. cbn [fst snd self memory]. fold m.
  unfold merged, put.
  destruct (payload_field "soil_moisture" soil), (payload_field "soil_temp" soil),
    (payload_field "rain" weather), (payload_field "temperature" weather),
    (payload_field "ts" weather); cbn [fmap option_fmap option_map from_option];
    repeat split; by simplify_map_eq.
Qed.

(** C8 as stated fails: the soil moisture ["wet"] does not convert to a
    float, and the merge stores it. *)
Lemma C8_malformed_reading_is_stored :
  py_float (PStr "wet") = inl ValueError ∧
  memory (self (snd (_store_agro_payloads (PDict [("soil_moisture", PStr "wet")]) PNone
                       (start new_agent)))) !! "soil_moisture"
    = Some (PStr "wet").
Proof. split; vm_compute; reflexivity. Qed.

(** C9.  The merge removes no key of the memory, and every key other than
    the five it writes keeps its value. *)
Theorem C9_enrichment_keeps_keys (soil weather : pyval) (r : Run) :
  let r' := snd (_store_agro_payloads soil weather r) in
  dom (memory (self r)) ⊆ dom (memory (self r')) ∧
  (∀ k, enrichment_key k ∨ memory (self r') !! k = memory (self r) !! k).
Proof.
  destruct (store_agro_footprint (fun _ => True) (fun _ => True) soil weather
              ltac:(done) ltac:(done) r) as [Hm Hd _ _].
  split; [done|]. intros k.
  destruct (decide (enrichment_key k)); [by left|right; auto].
Qed.

(** C10.  A field that a step of the plan requires and the memory lacks has
    its question exactly once in the output of [identify_missing_fields],
    also when several steps require it; and the questions come in the
    order in which their fields are first met, scanning the steps in order
    and the fields of each step in order. *)
Theorem C10_resolver_dedup (plan : list step) (mem : gmap string pyval) :
  let out := identify_missing_fields plan mem in
  let scan := map field_to_question (missing_fields plan mem) in
  (∀ st F, st ∈ plan -> F ∈ step_requires st -> mem !! F = None ->
      length (filter (eq (field_to_question (Str.replace "_" " " F))) out) = 1%nat) ∧
  (∀ i j q1 q2, out !! i = Some q1 -> out !! j = Some q2 -> (i < j)%nat ->
      ∃ a b, first_index q1 scan = Some a ∧ first_index q2 scan = Some b ∧ (a < b)%nat).
Proof.
  split.
  - intros st F Hst HF Hm. apply once_of_NoDup; [apply dedupe_NoDup|].
    apply dedupe_elem. eexists. split; [done|]. split; [|apply not_elem_of_empty].
    eauto using missing_fields_elem.
  - intros i j q1 q2. apply dedupe_order.
Qed.

(** C10 at the plan of the planner and an empty memory: [soil_type] is
    required by two steps and asked once. *)
Lemma C10_soil_type_asked_once :
  "soil_type" ∈ ["soil_type"; "ph"; "moisture"; "location"] ∧
  "soil_type" ∈ ["soil_type"; "ph"; "area_acres"; "moisture"] ∧
  length (filter (eq q_soil_type) (identify_missing_fields (simple_planner None) ∅)) = 1%nat.
Proof.
  split; [apply list_elem_of_here|]. split; [apply list_elem_of_here|].
  apply (proj1 (C10_resolver_dedup (simple_planner None) ∅)
           (Step "collect_info" (Some ["soil_type"; "ph"; "moisture"; "location"]))
           "soil_type").
  - apply list_elem_of_here.
  - apply list_elem_of_here.
  - apply lookup_empty.
Defined.

(** * Further properties *)

Lemma missing_fields_nil plan (mem : gmap string pyval) :
  (∀ st F, st ∈ plan -> F ∈ step_requires st -> is_Some (mem !! F)) ->
  missing_fields plan mem = [].
Proof.
  induction plan as [|st plan IH]; intros H; [done|].
  unfold missing_fields. simpl. fold (missing_fields plan mem).
  rewrite IH by (intros; eapply H; [by apply list_elem_of_further|done]).
  rewrite app_nil_r.
  assert (Hst : ∀ F, F ∈ step_requires st -> is_Some (mem !! F)).
  { intros F HF. apply (H st F); [apply list_elem_of_here|done]. }
  induction (step_requires st) as [|F l IHl]; [done|].
  rewrite filter_cons. destruct (Hst F) as [v Hv]; [apply list_elem_of_here|].
  rewrite decide_False by (by rewrite Hv).
  apply IHl. intros F' HF'. apply Hst. by apply list_elem_of_further.
Qed.

Lemma fetch_agro_footprint w lat lon cleanup :
  changes (footprint anything anything anything) (fetch_agro_for_location w lat lon cleanup).
Proof.
  unfold fetch_agro_for_location, create_polygon_from_geojson, post_polygon, attr_get,
    index0, get_soil_by_polyid, get_weather_by_polyid, _store_agro_payloads, when_key,
    store_float_or_raw, delete_polygon_by_id, send, json_of.
  footprint; done.
Qed.

Lemma provide_followup_answers_footprint w answers :
  changes (footprint anything anything anything) (provide_followup_answers w answers).
Proof.
  unfold provide_followup_answers, merge_answers, classify_location, enrich_from_polyid,
    recompute_final, execute_plan, read_inputs,
    get_soil_by_polyid, get_weather_by_polyid, _store_agro_payloads, when_key,
    store_float_or_raw, send, json_of.
  footprint; try done.
  - clear. induction answers as [|[q a] rest IH]; simpl; footprint; done.
  - apply fetch_agro_footprint.
Qed.

Lemma handle_user_input_footprint text :
  changes (footprint (fun _ => False) no_request anything) (handle_user_input text).
Proof. unfold handle_user_input, execute_plan, read_inputs. footprint; done. Qed.

(** ** Footprints of the steps after the answers are stored *)

Ltac key_side :=
  unfold merge_key, gateway_key, enrichment_key;
  rewrite ?elem_of_cons, ?elem_of_nil; auto 12.

Lemma footprint_weaken (K K2 : string -> Prop) (Q Q2 : request -> Prop)
    (E E2 : event -> Prop) r r2 :
  (∀ k, K k -> K2 k) -> (∀ q, Q q -> Q2 q) -> (∀ ev, E ev -> E2 ev) ->
  footprint K Q E r r2 -> footprint K2 Q2 E2 r r2.
Proof.
  intros HK HQ HE [Hm Hd (reqs & Hs & Hq) (evs & Hl & He)]. split.
  - intros k Hk. apply Hm. auto.
  - done.
  - exists reqs. split; [done|]. eapply Forall_impl; eauto.
  - exists evs. split; [done|]. eapply Forall_impl; eauto.
Qed.

Lemma changes_weaken {A} (K K2 : string -> Prop) (Q Q2 : request -> Prop)
    (E E2 : event -> Prop) (m : M A) :
  (∀ k, K k -> K2 k) -> (∀ q, Q q -> Q2 q) -> (∀ ev, E ev -> E2 ev) ->
  changes (footprint K Q E) m -> changes (footprint K2 Q2 E2) m.
Proof. intros HK HQ HE H r. eapply footprint_weaken; eauto. Qed.

Lemma bind_ret {A B} (a : A) (k : A -> M B) : bind (ret a) k = k a.
Proof. reflexivity. Qed.

Lemma bind_run {A B} (m : M A) (k : A -> M B) r a r1 :
  m r = (Ret a, r1) -> bind m k r = k a r1.
Proof. intros H. unfold bind. by rewrite H. Qed.

Lemma fetch_agro_gateway_footprint Q E w lat lon cleanup :
  (∀ q, Q q) -> (∀ ev, E ev) ->
  changes (footprint gateway_key Q E) (fetch_agro_for_location w lat lon cleanup).
Proof.
  intros HQ HE.
  unfold fetch_agro_for_location, create_polygon_from_geojson, post_polygon, attr_get,
    index0, get_soil_by_polyid, get_weather_by_polyid, _store_agro_payloads, when_key,
    store_float_or_raw, delete_polygon_by_id, send, json_of.
  footprint; try done; key_side.
Qed.

Lemma classify_location_footprint w :
  changes (footprint merge_key anything anything) (classify_location w).
Proof.
  unfold classify_location. footprint; try done; try (by left).
  eapply changes_weaken; [| | |apply (fetch_agro_gateway_footprint anything anything)];
    try done. intros k Hk. by right.
Qed.

(** The enrichment writes the five keys of the merge, sends only fetches
    and logs nothing of the coordinate path. *)
Lemma enrich_from_polyid_footprint w :
  changes (footprint enrichment_key fetch_request other_event) (enrich_from_polyid w).
Proof.
  unfold enrich_from_polyid, get_soil_by_polyid, get_weather_by_polyid, _store_agro_payloads,
    when_key, store_float_or_raw, send, json_of.
  footprint; try done; try quiet;
    unfold enrichment_key; rewrite ?elem_of_cons, ?elem_of_nil; auto 12.
Qed.

(** The steps of [provide_followup_answers], one after the other. *)
Lemma provide_followup_answers_steps w answers r :
  snd (provide_followup_answers w answers r)
    = snd (recompute_final
             (snd (enrich_from_polyid w
                     (snd (classify_location w (snd (store_answers answers r))))))).
Proof.
  unfold provide_followup_answers, merge_answers.
  rewrite (bind_unit (bind _ _)) by apply total_merge_answers.
  rewrite (bind_unit (store_answers _)) by apply total_store_answers.
  by rewrite (bind_unit (classify_location _)) by apply total_classify_location.
Qed.

(** What follows the location step: the enrichment and the finalization. *)
Lemma after_location_footprint w answers r :
  footprint enrichment_key fetch_request other_event
    (snd (classify_location w (snd (store_answers answers r))))
    (snd (provide_followup_answers w answers r)).
Proof.
  rewrite provide_followup_answers_steps.
  etrans; [apply enrich_from_polyid_footprint|apply recompute_final_footprint].
Qed.

(** After the answers are stored, only [polyid] and the keys of the polygon
    calls are written. *)
Lemma after_answers_footprint w answers r :
  footprint merge_key anything anything
    (snd (store_answers answers r)) (snd (provide_followup_answers w answers r)).
Proof.
  etrans; [apply classify_location_footprint|].
  eapply footprint_weaken; [| | |apply after_location_footprint]; try done.
  intros k Hk. right. by right.
Qed.

Lemma provide_followup_answers_result w answers r :
  final_of_response (fst (provide_followup_answers w answers r))
    = finalized (memory (self (snd (merge_answers w answers r)))).
Proof.
  unfold provide_followup_answers, bind. rewrite merge_answers_run.
  apply recompute_final_result.
Qed.

Lemma merge_answers_memory w answers r :
  memory (self (snd (merge_answers w answers r)))
    = memory (self (snd (provide_followup_answers w answers r))).
Proof.
  unfold provide_followup_answers.
  rewrite (bind_unit (merge_answers _ _)) by apply total_merge_answers.
  apply map_eq. intros k. symmetry.
  apply (recompute_final_footprint (fun _ => False) anything). tauto.
Qed.

Lemma finalized_numbers mem :
  match numbers_of_memory mem with
  | inl e => finalized mem = Raise e
  | inr (area, ph) =>
      ∃ i, finalized mem = Ret (Some (final_of_inputs i))
           ∧ in_area_acres i = area ∧ in_ph i = ph
  end.
Proof.
  unfold numbers_of_memory, finalized, inputs_of_memory.
  destruct (py_float (default (PInt 1) _)); [done|].
  destruct (py_float (default (PFloat _) _)); [done|].
  eexists. split; [reflexivity|]. done.
Qed.

Lemma not_merge_key_area : ¬ merge_key "area_acres".
Proof. unfold merge_key, gateway_key, enrichment_key.
  rewrite ?elem_of_cons, ?elem_of_nil. intuition discriminate. Qed.

Lemma not_merge_key_ph : ¬ merge_key "ph".
Proof. unfold merge_key, gateway_key, enrichment_key.
  rewrite ?elem_of_cons, ?elem_of_nil. intuition discriminate. Qed.

(** [provide_followup_answers] raises or finalizes by the area and the pH
    in memory once the answers are stored. *)
Lemma raises_by_numbers w answers r :
  match numbers_of_memory (memory (self (snd (store_answers answers r)))) with
  | inl e => fst (provide_followup_answers w answers r) = Raise e
  | inr (area, ph) =>
      ∃ i l, fst (provide_followup_answers w answers r) = Ret (Final (final_of_inputs i) l)
             ∧ in_area_acres i = area ∧ in_ph i = ph
  end.
Proof.
  set (r1 := snd (store_answers answers r)).
  destruct (after_answers_footprint w answers r) as [Hm _ _ _]. fold r1 in Hm.
  rewrite <- merge_answers_memory in Hm.
  assert (Heq : numbers_of_memory (memory (self (snd (merge_answers w answers r))))
                = numbers_of_memory (memory (self r1))).
  { unfold numbers_of_memory.
    by rewrite (Hm _ not_merge_key_area), (Hm _ not_merge_key_ph). }
  pose proof (provide_followup_answers_result w answers r) as Hres.
  pose proof (finalized_numbers (memory (self (snd (merge_answers w answers r))))) as Hn.
  rewrite Heq in Hn.
  destruct (numbers_of_memory (memory (self r1))) as [e|[area ph]].
  - rewrite Hn in Hres.
    destruct (fst (provide_followup_answers w answers r)) as [[]|]; simplify_eq/=; done.
  - destruct Hn as (i & Hf & ? & ?). rewrite Hf in Hres.
    destruct (fst (provide_followup_answers w answers r)) as [[qs l|f l]|]; simplify_eq/=.
    eauto.
Qed.

(** ** Without an API key *)

Lemma fetch_agro_without_key w lat lon cleanup :
  _get_api_key w = "" ->
  fetch_agro_for_location w lat lon cleanup = (log EvApiKeyMissingForLocation ;;; ret PNone).
Proof. intros H. unfold fetch_agro_for_location. by rewrite H. Qed.

Lemma store_agro_nothing_footprint K Q :
  changes (footprint K Q anything) (_store_agro_payloads PNone PNone).
Proof. unfold _store_agro_payloads. cbn [truthy]. footprint; done. Qed.

Lemma enrich_without_key w :
  _get_api_key w = "" ->
  enrich_from_polyid w =
    (mem <- get_memory ;;
     match mem !! "polyid" with
     | Some polyid => if truthy polyid then _store_agro_payloads PNone PNone else ret tt
     | None => ret tt
     end).
Proof.
  intros Hk. unfold enrich_from_polyid, get_soil_by_polyid, get_weather_by_polyid.
  rewrite Hk. cbn [String.eqb orb]. by rewrite !bind_ret.
Qed.

Lemma merge_without_key_footprint w :
  _get_api_key w = "" ->
  changes (footprint polyid_key no_request anything)
    (classify_location w ;;; enrich_from_polyid w).
Proof.
  intros Hk. rewrite enrich_without_key by done. unfold classify_location.
  footprint; try done; try apply store_agro_nothing_footprint.
  rewrite fetch_agro_without_key by done. footprint. done.
Qed.

(** ** The location step *)

Lemma bad_location_run w r loc e :
  memory (self r) !! "location" = Some (PStr loc) ->
  Str.contains "," loc = true ->
  coordinates_of loc = inl e ->
  classify_location w r = (Ret tt, logged (EvBadLocation loc e) r).
Proof.
  intros Hloc Hc He. unfold classify_location, bind at 1, get_memory.
  rewrite Hloc, Hc. cbn [negb andb]. unfold coordinates_of in He.
  unfold try_except.
  destruct (Str.split_on "," loc) as [|lat_s [|lon_s [|]]]; simplify_eq/=; try done.
  unfold bind at 1.
  destruct (Num.float_of_str (Str.strip lat_s)) as [lat|]; simplify_eq/=; [|done].
  unfold bind at 1.
  destruct (Num.float_of_str (Str.strip lon_s)) as [lon|]; simplify_eq/=; done.
Qed.

Lemma post_polygon_sends w g name r :
  ∃ reqs,
    sent (snd (post_polygon w g (Some name) r))
      = (sent r ++ CreatePolygon (match name with String _ _ => name
                                  | EmptyString => "field_" ++ Num.str_of_int (clock w) end) g
           :: reqs)%list.
Proof.
  unfold post_polygon.
  set (nm := match name with String _ _ => name | _ => _ end).
  set (h := fun _ : exn => _).
  unfold send at 1.
  match goal with |- context [try_except (bind (bind (http w ?q) ?k1) ?k2) h r] =>
    set (req := q); set (K1 := k1); set (K2 := k2) end.
  set (r1 := MkRun (self r) (sent r ++ [req])).
  assert (Hstep : try_except (bind (bind (http w req) K1) K2) h r
                  = try_except (bind (K1 (respond w (sent r) req)) K2) h r1) by reflexivity.
  rewrite Hstep.
  assert (Hfp : changes (footprint anything anything anything)
                  (try_except (bind (K1 (respond w (sent r) req)) K2) h)).
  { unfold K1, K2, h, json_of, attr_get. footprint; done. }
  destruct (Hfp r1) as [_ _ (reqs & Hs & _) _].
  exists reqs. rewrite Hs. unfold r1. cbn [sent]. by rewrite <- app_assoc.
Qed.

Lemma total_delete_polygon w p : total (delete_polygon_by_id w p).
Proof. unfold delete_polygon_by_id. totality. Qed.

Lemma post_polygon_returns w g name r :
  ∃ v, fst (post_polygon w g name r) = Ret v ∧ (v = PNone ∨ ∃ d, v = PDict d).
Proof.
  unfold post_polygon, send, json_of, attr_get, get_memory, store, log, on_agent, http,
    try_except, bind, ret, raise.
  cbv beta.
  match goal with
  | |- context [respond w (sent r) ?q] => destruct (respond w (sent r) q) as [|[] [[]|]]
  end; cbn; eauto;
    destruct (memory (self r) !! "polygons") as [[]|]; cbn; eauto.
Qed.

Lemma total_post_polygon w g name : total (post_polygon w g name).
Proof. intros r. destruct (post_polygon_returns w g name r) as (v & Hv & _). eauto. Qed.

(** With a key, [fetch_agro_for_location] returns, and the first thing it
    sends is the request for the square around the point. *)
Lemma fetch_agro_run w lat lon cleanup r :
  String.eqb (_get_api_key w) "" = false ->
  ∃ v reqs,
    fst (fetch_agro_for_location w lat lon cleanup r) = Ret v ∧
    sent (snd (fetch_agro_for_location w lat lon cleanup r))
      = (sent r ++ square_request w lat lon :: reqs)%list.
Proof.
  intros Hk.
  unfold fetch_agro_for_location, create_polygon_from_geojson. rewrite Hk.
  change (has_type "FeatureCollection" (feature_of (square_around lat lon))) with false.
  change (has_type "Feature" (feature_of (square_around lat lon))) with true.
  cbv iota.
  set (name := ("field_" ++ Num.str_of_int (clock w))%string).
  set (g := feature_of (square_around lat lon)).
  match goal with |- context [bind (post_polygon w g (Some name)) ?k] => set (K := k) end.
  destruct (post_polygon_returns w g (Some name) r) as (v & Hv & Hshape).
  destruct (post_polygon_sends w g name r) as (reqs1 & Hs1).
  assert (Hname : match name with String _ _ => name
                  | EmptyString => ("field_" ++ Num.str_of_int (clock w))%string end = name)
    by reflexivity.
  rewrite Hname in Hs1.
  assert (HK : total (K v) ∧ changes (footprint anything anything anything) (K v)).
  { unfold K, attr_get, get_soil_by_polyid, get_weather_by_polyid, _store_agro_payloads,
      when_key, store_float_or_raw, send, json_of.
    split.
    - destruct Hshape as [->|[d ->]]; cbn [truthy]; totality;
        auto using total_get_soil, total_get_weather, total_store_agro, total_delete_polygon.
    - footprint; try done.
      unfold delete_polygon_by_id, send, json_of. footprint; done. }
  destruct HK as [Ht Hc].
  destruct (post_polygon w g (Some name) r) as [o r1] eqn:Hpost. simpl in Hv, Hs1. subst o.
  rewrite (bind_run _ _ _ _ _ Hpost).
  destruct (Ht r1) as [v' Hv']. destruct (Hc r1) as [_ _ (reqs2 & Hs2 & _) _].
  exists v', (reqs1 ++ reqs2)%list. split; [done|].
  rewrite Hs2, Hs1, <- app_assoc. done.
Qed.

Lemma total_fetch_agro w lat lon cleanup : total (fetch_agro_for_location w lat lon cleanup).
Proof.
  intros r. destruct (String.eqb_spec (_get_api_key w) "") as [Hk|Hk].
  - rewrite (fetch_agro_without_key _ _ _ _ Hk). by exists PNone.
  - apply String.eqb_neq in Hk.
    destruct (fetch_agro_run w lat lon cleanup r Hk) as (v & _ & Hv & _). eauto.
Qed.

(** The location step at a point, with a key. *)
Lemma coordinate_location_run w r loc lat lon :
  memory (self r) !! "location" = Some (PStr loc) ->
  Str.contains "," loc = true ->
  coordinates_of loc = inr (lat, lon) ->
  String.eqb (_get_api_key w) "" = false ->
  let r2 := snd (classify_location w r) in
  memory (self r2) !! "polyid" = memory (self r) !! "polyid" ∧
  (∃ reqs, sent r2 = (sent r ++ square_request w lat lon :: reqs)%list) ∧
  (∃ evs fetched, logs (self r2) = (logs (self r) ++ evs ++ [EvAgroFetched fetched])%list).
Proof.
  intros Hloc Hc Hco Hk r2.
  assert (Hrun : classify_location w r =
                 bind (fetch_agro_for_location w lat lon true)
                   (fun agro => log (EvAgroFetched (truthy agro))) r).
  { unfold classify_location, bind at 1, get_memory.
    rewrite Hloc, Hc. cbn [negb andb]. unfold coordinates_of in Hco.
    destruct (Str.split_on "," loc) as [|lat_s [|lon_s [|]]]; simplify_eq/=.
    destruct (Num.float_of_str (Str.strip lat_s)) as [lat'|]; simplify_eq/=.
    destruct (Num.float_of_str (Str.strip lon_s)) as [lon'|]; simplify_eq/=.
    destruct (fetch_agro_run w lat lon true r Hk) as (v & reqs & Hv & _).
    destruct (fetch_agro_for_location w lat lon true r) as [o r1] eqn:Hf. simpl in Hv. subst o.
    unfold try_except. cbn [lift]. rewrite !bind_ret.
    by rewrite (bind_run _ _ _ _ _ Hf). }
  destruct (fetch_agro_run w lat lon true r Hk) as (v & reqs & Hv & Hs).
  pose proof (fetch_agro_gateway_footprint anything anything w lat lon true
                ltac:(done) ltac:(done) r) as [Hm _ _ (evs & Hl & _)].
  unfold r2. rewrite Hrun.
  destruct (fetch_agro_for_location w lat lon true r) as [o r1] eqn:Hf. simpl in *. subst o.
  rewrite (bind_run _ _ _ _ _ Hf).
  cbn [log on_agent snd self memory logs sent]. split; [|split].
  - apply Hm. unfold gateway_key, enrichment_key.
    rewrite ?elem_of_cons, ?elem_of_nil. intuition discriminate.
  - eauto.
  - exists evs, (truthy v). by rewrite Hl, <- app_assoc.
Qed.

Lemma not_enrichment_key_polyid : ¬ enrichment_key "polyid".
Proof. unfold enrichment_key. rewrite ?elem_of_cons, ?elem_of_nil. intuition discriminate. Qed.

(** ** The answers in memory *)

Lemma store_answers_memory answers r :
  memory (self (snd (store_answers answers r))) = with_answers answers (memory (self r)).
Proof.
  revert r. induction answers as [|[q a] rest IH]; intros r; [done|].
  cbn [store_answers]. rewrite !bind_unit by apply total_on_agent.
  rewrite IH. reflexivity.
Qed.

Lemma with_answers_app answers more mem :
  with_answers (answers ++ more) mem = with_answers more (with_answers answers mem).
Proof. apply fold_left_app. Qed.

Lemma with_answers_other answers mem k :
  (∀ qa, qa ∈ answers -> field_of_question (fst qa) <> k) ->
  with_answers answers mem !! k = mem !! k.
Proof.
  revert mem. induction answers as [|[q a] rest IH]; intros mem H; [done|].
  cbn [with_answers fold_left]. fold (with_answers rest).
  rewrite IH by (intros; apply H; by apply list_elem_of_further).
  apply lookup_insert_ne. apply (H (q, a)). apply list_elem_of_here.
Qed.

Lemma with_answers_last answers more q a mem :
  (∀ qa, qa ∈ more -> field_of_question (fst qa) <> field_of_question q) ->
  with_answers (answers ++ (q, a) :: more) mem !! field_of_question q
    = Some (_parse_answer_for_field (field_of_question q) a).
Proof.
  intros Hmore. rewrite with_answers_app.
  cbn [with_answers fold_left]. fold (with_answers more).
  rewrite with_answers_other by done. apply lookup_insert_eq.
Qed.

Lemma store_answers_fields_footprint (K : string -> Prop) answers :
  (∀ qa, qa ∈ answers -> K (field_of_question (fst qa))) ->
  changes (footprint K no_request anything) (store_answers answers).
Proof.
  induction answers as [|[q a] rest IH]; intros HK; cbn [store_answers]; footprint; try done.
  - apply (HK (q, a)), list_elem_of_here.
  - apply IH. intros qa Hqa. apply HK. by apply list_elem_of_further.
Qed.

(** ** The questions of the planner *)

Lemma planner_requires text F :
  (∃ st, st ∈ simple_planner text ∧ F ∈ step_requires st) ↔ F ∈ required_fields.
Proof.
  unfold simple_planner, required_fields. split.
  - intros (st & Hst & HF).
    destruct (_ || _); cbn [app] in Hst;
      repeat (apply elem_of_cons in Hst as [->|Hst]); try (by apply elem_of_nil in Hst);
      cbn [step_requires requires default id] in HF;
      repeat (apply elem_of_cons in HF as [->|HF]); try (by apply elem_of_nil in HF);
      rewrite !elem_of_cons; tauto.
  - intros HF.
    assert (Hcall : F ∈ ["soil_type"; "ph"; "area_acres"; "moisture"] ->
                    ∃ st, st ∈ [Step "collect_info"
                                  (Some ((if Str.contains "acre" (Str.lower (default "" text))
                                             || Str.contains "area" (Str.lower (default "" text))
                                          then ["area_acres"] else [])
                                         ++ ["soil_type"; "ph"; "moisture"; "location"])%list);
                                Step "call_crop_tool"
                                  (Some ["soil_type"; "ph"; "area_acres"; "moisture"]);
                                Step "build_plan" (Some ["crop_recommendation"])]
                          ∧ F ∈ step_requires st).
    { intros H. eexists. split; [apply list_elem_of_further, list_elem_of_here|done]. }
    repeat (apply elem_of_cons in HF as [->|HF]); try (by apply elem_of_nil in HF);
      try (apply Hcall; rewrite !elem_of_cons; tauto).
    + eexists. split; [apply list_elem_of_here|].
      cbn [step_requires requires default id]. rewrite elem_of_app, !elem_of_cons. tauto.
    + eexists. split; [do 2 apply list_elem_of_further; apply list_elem_of_here|].
      cbn [step_requires requires default id]. rewrite !elem_of_cons. tauto.
Qed.

(** A question is asked for each required field that the memory lacks, and
    for nothing else. *)
Lemma question_asked text (mem : gmap string pyval) q :
  q ∈ identify_missing_fields (simple_planner text) mem ↔
  ∃ F, F ∈ required_fields ∧ mem !! F = None ∧ q = field_to_question (Str.replace "_" " " F).
Proof.
  unfold identify_missing_fields. rewrite dedupe_elem. split.
  - intros (m & -> & Hm & _). unfold missing_fields in Hm.
    apply list_elem_of_In, in_flat_map in Hm as (st & Hst & Hm).
    apply list_elem_of_In, list_elem_of_fmap in Hm as (F & -> & HF).
    apply list_elem_of_filter in HF as [Hnone HF]. apply list_elem_of_In in Hst.
    exists F. split; [|done]. apply (planner_requires text). eauto.
  - intros (F & HF & Hnone & ->). apply (planner_requires text) in HF as (st & Hst & HF).
    eexists. split; [done|]. split; [|apply not_elem_of_empty].
    by apply (missing_fields_elem _ _ st).
Qed.

Lemma planner_question text (mem : gmap string pyval) q :
  q ∈ identify_missing_fields (simple_planner text) mem -> q ∈ planner_questions.
Proof.
  intros (F & HF & _ & ->)%question_asked. unfold required_fields in HF.
  repeat (apply elem_of_cons in HF as [->|HF]); try (by apply elem_of_nil in HF);
    unfold planner_questions; rewrite !elem_of_cons; vm_compute; tauto.
Qed.

Lemma planner_question_field q :
  q ∈ planner_questions -> field_of_question q <> "crop_recommendation".
Proof.
  unfold planner_questions. intros H.
  repeat (apply elem_of_cons in H as [->|H]); try (by apply elem_of_nil in H);
    vm_compute; discriminate.
Qed.

Lemma planner_field_inj q1 q2 :
  q1 ∈ planner_questions -> q2 ∈ planner_questions ->
  field_of_question q1 = field_of_question q2 -> q1 = q2.
Proof.
  unfold planner_questions. intros H1 H2.
  repeat (apply elem_of_cons in H1 as [->|H1]); try (by apply elem_of_nil in H1);
    repeat (apply elem_of_cons in H2 as [->|H2]); try (by apply elem_of_nil in H2);
    vm_compute; congruence.
Qed.

Lemma questions_permute t1 t2 (mem : gmap string pyval) :
  identify_missing_fields (simple_planner t1) mem
    ≡ₚ identify_missing_fields (simple_planner t2) mem.
Proof.
  apply NoDup_Permutation; [apply dedupe_NoDup..|].
  intros q. by rewrite !question_asked.
Qed.

(** ** Text *)

Lemma str_app_cons c (a b : string) : String c a ++ b = String c (a ++ b).
Proof. reflexivity. Qed.

Lemma str_app_assoc (a b c : string) : (a ++ b) ++ c = a ++ b ++ c.
Proof. induction a as [|x a IH]; [done|]. by rewrite !str_app_cons, IH. Qed.

Lemma str_app_nil_r (a : string) : a ++ "" = a.
Proof. induction a as [|x a IH]; [done|]. by rewrite str_app_cons, IH. Qed.

Lemma rev_onto_app s acc : Str.rev_onto s acc = Str.rev_onto s "" ++ acc.
Proof.
  revert acc. induction s as [|c s IH]; intros acc; [done|].
  cbn [Str.rev_onto]. rewrite IH, (IH (String c "")).
  by rewrite str_app_assoc.
Qed.

Lemma rev_cons c s : Str.rev (String c s) = Str.rev s ++ String c "".
Proof. unfold Str.rev. cbn [Str.rev_onto]. apply rev_onto_app. Qed.

Lemma contains_app_r sub a b : Str.contains sub b = true -> Str.contains sub (a ++ b) = true.
Proof.
  intros H. induction a as [|c a IH]; [done|].
  rewrite str_app_cons. cbn [Str.contains]. rewrite IH. apply orb_true_r.
Qed.

Lemma lower_char_idem c : Str.lower_char (Str.lower_char c) = Str.lower_char c.
Proof. by destruct c as [[][][][][][][][]]. Qed.

Lemma lower_idem s : Str.lower (Str.lower s) = Str.lower s.
Proof. induction s as [|c s IH]; [done|]. cbn [Str.lower]. by rewrite lower_char_idem, IH. Qed.

Lemma lower_empty s : String.eqb (Str.lower s) "" = String.eqb s "".
Proof. by destruct s. Qed.

Lemma chars_app (a b : string) :
  list_ascii_of_string (a ++ b) = (list_ascii_of_string a ++ list_ascii_of_string b)%list.
Proof.
  induction a as [|y a IH]; [done|].
  rewrite str_app_cons. cbn [list_ascii_of_string app]. by rewrite IH.
Qed.

(** A character left by a replacement comes from the new text, or was there
    and is not the one replaced. *)
Lemma replace_chars c new s x :
  In x (list_ascii_of_string (Str.replace c new s)) ->
  In x (list_ascii_of_string new) ∨ (In x (list_ascii_of_string s) ∧ x <> c).
Proof.
  induction s as [|d s IH]; [done|]. cbn [Str.replace].
  rewrite chars_app, in_app_iff. intros [H|H].
  - destruct (Ascii.eqb_spec d c) as [->|Hd]; [by left|].
    cbn in H. destruct H as [<-|[]]. right. split; [by left|done].
  - destruct (IH H) as [?|[? ?]]; [by left|]. right. split; [by right|done].
Qed.

(** ** The page *)

Lemma split_without_arrow p cur :
  Str.contains "->" p = false -> Frontend.split_from "->" 0 p cur = [Str.rev cur ++ p].
Proof.
  revert cur. induction p as [|c p IH]; intros cur Hc.
  - cbn. by rewrite str_app_nil_r.
  - cbn [Str.contains] in Hc. apply orb_false_iff in Hc as [Hp Hc].
    cbn [Frontend.split_from]. rewrite Hp, IH by done.
    by rewrite rev_cons, str_app_assoc.
Qed.

Lemma prefix_arrow c s :
  String.prefix "->" (String c s) = true -> c = "-"%char ∧ ∃ s2, s = String ">" s2.
Proof.
  cbn [String.prefix]. destruct (ascii_dec "-" c) as [<-|]; [|intros; discriminate].
  destruct s as [|d s]; [intros; discriminate|]. cbn [String.prefix].
  destruct (ascii_dec ">" d) as [<-|]; [|intros; discriminate]. eauto.
Qed.

(** The last part of a text split at its arrows is what follows the last
    arrow. *)
Lemma split_before_arrow p s :
  Str.contains "->" p = false ->
  ∀ skip cur,
    (skip = 0%nat ∨ skip = 1%nat ∧ ∃ s2, s = String ">" s2) ->
    ∃ parts, Frontend.split_from "->" skip (s ++ "->" ++ p) cur = (parts ++ [p])%list.
Proof.
  intros Hp. induction s as [|c s IH]; intros skip cur Hskip.
  - destruct Hskip as [->|[_ [? ?]]]; [|done].
    exists [Str.rev cur].
    change ("" ++ "->" ++ p) with (String "-" (String ">" p)).
    cbn [Frontend.split_from].
    replace (String.prefix "->" (String "-" (String ">" p))) with true by (by destruct p).
    cbn [Frontend.split_from String.length Nat.sub]. by rewrite split_without_arrow.
  - destruct Hskip as [->|[-> [s2 Hs]]].
    + rewrite str_app_cons. cbn [Frontend.split_from].
      destruct (String.prefix "->" (String c (s ++ "->" ++ p))) eqn:Hpre.
      * apply prefix_arrow in Hpre as [-> [s2 Hs]].
        destruct s as [|d s]; [done|]. rewrite str_app_cons in Hs. simplify_eq.
        destruct (IH 1%nat "") as [parts Hparts]; [right; eauto|].
        exists (Str.rev cur :: parts). cbn [String.length Nat.sub]. by rewrite Hparts.
      * destruct (IH 0%nat (String c cur)) as [parts Hparts]; [by left|]. eauto.
    + simplify_eq. rewrite str_app_cons. cbn [Frontend.split_from]. apply IH. by left.
Qed.

Lemma dedupe_from_id (l : list string) (seen : gset string) :
  NoDup (map Frontend.normalize_question l) ->
  (∀ q, q ∈ l -> Frontend.normalize_question q ∉ seen) ->
  Frontend.dedupe_from l seen = l.
Proof.
  revert seen. induction l as [|q l IH]; intros seen Hnd Hs; [done|].
  cbn [Frontend.dedupe_from]. apply NoDup_cons in Hnd as [Hq Hnd].
  rewrite decide_False by (apply Hs, list_elem_of_here).
  f_equal. apply IH; [done|]. intros q2 Hq2.
  rewrite not_elem_of_union, not_elem_of_singleton. split.
  - intros E. apply Hq. rewrite <- E. apply list_elem_of_fmap. eauto.
  - apply Hs. by apply list_elem_of_further.
Qed.

Lemma normalize_planner_question_inj q1 q2 :
  q1 ∈ planner_questions -> q2 ∈ planner_questions ->
  Frontend.normalize_question q1 = Frontend.normalize_question q2 -> q1 = q2.
Proof.
  unfold planner_questions. intros H1 H2.
  repeat (apply elem_of_cons in H1 as [->|H1]); try (by apply elem_of_nil in H1);
    repeat (apply elem_of_cons in H2 as [->|H2]); try (by apply elem_of_nil in H2);
    vm_compute; congruence.
Qed.

Lemma dedupe_questions_planner text (mem : gmap string pyval) :
  Frontend.dedupe_questions (identify_missing_fields (simple_planner text) mem)
    = identify_missing_fields (simple_planner text) mem.
Proof.
  apply dedupe_from_id; [|intros; apply not_elem_of_empty].
  apply NoDup_fmap_2_strong; [|apply dedupe_NoDup].
  intros q1 q2 H1 H2. apply normalize_planner_question_inj; by eapply planner_question.
Qed.

Lemma dict_set_fresh q v (acc : list (string * pyval)) :
  q ∉ map fst acc -> dict_set q v acc = (acc ++ [(q, v)])%list.
Proof.
  induction acc as [|[k x] acc IH]; [done|]. cbn [map fst dict_set].
  rewrite not_elem_of_cons. intros [Hne Hq].
  destruct (String.eqb_spec q k); [done|]. cbn [app]. by rewrite IH.
Qed.

Lemma ask_from_inv h mem qs :
  ∀ i acc resp,
    NoDup qs -> (∀ q, q ∈ qs -> q ∉ map fst acc) ->
    Frontend.ask_from h mem i qs acc = inr resp ->
    ∃ tail, resp = (acc ++ tail)%list ∧ map fst tail = qs ∧
            ∀ j q v, tail !! j = Some (q, v) -> Frontend.ask h mem (i + j) q = inr v.
Proof.
  induction qs as [|q qs IH]; intros i acc resp Hnd Hacc Hrun.
  - cbn in Hrun. simplify_eq. exists []. rewrite app_nil_r. done.
  - cbn [Frontend.ask_from] in Hrun.
    destruct (Frontend.ask h mem i q) as [e|v] eqn:Hq; [done|].
    apply NoDup_cons in Hnd as [Hfresh Hnd].
    rewrite dict_set_fresh in Hrun by (apply Hacc, list_elem_of_here).
    apply IH in Hrun as (tail & -> & Hk & Ht); [|done|].
    + exists ((q, v) :: tail). rewrite <- app_assoc. split; [done|]. split; [by rewrite <- Hk|].
      intros [|j] q2 v2 Hj.
      * cbn in Hj. simplify_eq. by rewrite Nat.add_0_r.
      * cbn in Hj. rewrite Nat.add_succ_r. by apply Ht.
    + intros q2 Hq2. rewrite map_app, elem_of_app. cbn [map fst].
      rewrite list_elem_of_singleton. intros [Hin| ->]; [|done].
      revert Hin. apply Hacc. by apply list_elem_of_further.
Qed.

Lemma ask_from_runs h mem qs :
  ∀ i acc, (∀ j q, q ∈ qs -> ∃ v, Frontend.ask h mem j q = inr v) ->
           ∃ resp, Frontend.ask_from h mem i qs acc = inr resp.
Proof.
  induction qs as [|q qs IH]; intros i acc Hall; [by eexists|].
  cbn [Frontend.ask_from]. destruct (Hall i q) as [v ->]; [apply list_elem_of_here|].
  apply IH. intros j q2 Hq2. apply Hall. by apply list_elem_of_further.
Qed.

Lemma ask_runs h mem i q : listable mem -> ∃ v, Frontend.ask h mem i q = inr v.
Proof.
  intros Hl. unfold Frontend.ask.
  destruct (Str.contains "area" _); [eauto|].
  destruct (_ || _).
  - destruct (mem !! "polygons") as [v|] eqn:Hv; cbn [default id]; [|cbn; eauto].
    destruct (truthy v) eqn:Ht; [|eauto].
    destruct (Hl v Hv Ht) as [ps ->].
    destruct (_ && _); eauto.
  - destruct (_ || _); [eauto|].
    destruct (Str.contains "moisture" _); [eauto|].
    destruct (Str.contains "soil type" _); eauto.
Qed.

Lemma stored_once answers q a mem :
  NoDup (map fst answers) -> (∀ qa, qa ∈ answers -> fst qa ∈ planner_questions) ->
  (q, a) ∈ answers ->
  with_answers answers mem !! field_of_question q
    = Some (_parse_answer_for_field (field_of_question q) a).
Proof.
  intros Hnd Hp Hin. apply list_elem_of_split in Hin as (l1 & l2 & ->).
  apply with_answers_last.
  intros qa Hqa Hf. rewrite map_app in Hnd. apply NoDup_app in Hnd as (_ & _ & Hnd).
  cbn [map fst] in Hnd. apply NoDup_cons in Hnd as [Hnd _]. apply Hnd.
  assert (fst qa = q) as <-.
  { apply planner_field_inj; [| |done].
    - apply Hp. rewrite elem_of_app, elem_of_cons. auto.
    - apply (Hp (q, a)). rewrite elem_of_app, elem_of_cons. auto. }
  apply list_elem_of_fmap. eauto.
Qed.

(** X1.  Resolver completeness: when the memory has every field that a
    step of the plan requires, [identify_missing_fields] returns no
    question. *)
Theorem X1_resolver_complete (plan : list step) (mem : gmap string pyval) :
  (∀ st F, st ∈ plan -> F ∈ step_requires st -> is_Some (mem !! F)) ->
  identify_missing_fields plan mem = [].
Proof. intros H. unfold identify_missing_fields. by rewrite missing_fields_nil. Qed.

(** X1 at a plan of one step with one field. *)
Lemma X1_nothing_missing_for_ph : identify_missing_fields ph_plan ph_memory = [].
Proof.
  apply X1_resolver_complete. intros st F Hst HF.
  apply list_elem_of_singleton in Hst as ->. apply list_elem_of_singleton in HF as ->.
  by eexists.
Defined.

(** X2.  Finalization is idempotent: [execute_plan] leaves the memory as it
    was, and a second call returns what the first returned. *)
Theorem X2_finalize_idempotent (plan : list step) (r : Run) :
  memory (self (snd (execute_plan plan r))) = memory (self r) ∧
  fst (execute_plan plan (snd (execute_plan plan r))) = fst (execute_plan plan r).
Proof.
  assert (Hm : memory (self (snd (execute_plan plan r))) = memory (self r)).
  { apply map_eq. intros k.
    apply (execute_plan_footprint (fun _ => False) anything plan r). tauto. }
  split; [done|]. by rewrite !execute_plan_fst, Hm.
Qed.

(** X3.  Default fallback: when the memory has none of [area_acres],
    [soil_type], [ph], [moisture] and [soil_moisture], finalization
    returns the result for an area of 1, clay, a pH of 6.5 and medium
    moisture. *)
Theorem X3_finalize_defaults (plan : list step) (r : Run) :
  memory (self r) !! "area_acres" = None ->
  memory (self r) !! "soil_type" = None ->
  memory (self r) !! "ph" = None ->
  memory (self r) !! "moisture" = None ->
  memory (self r) !! "soil_moisture" = None ->
  fst (execute_plan plan r) = Ret (final_of_inputs (Inputs 1 "clay" 6.5 "medium")).
Proof.
  intros Ha Hs Hp Hm Hr. rewrite execute_plan_fst. unfold inputs_of_memory.
  by rewrite Ha, Hs, Hp, Hm, Hr.
Qed.

(** X3 at a new agent. *)
Lemma X3_new_agent_gets_maize :
  crop (crop_recommendation_tool (Inputs 1 "clay" 6.5 "medium")) = "Maize" ∧
  fst (execute_plan [] (start new_agent))
    = Ret (final_of_inputs (Inputs 1 "clay" 6.5 "medium")).
Proof.
  split; [reflexivity|]. apply X3_finalize_defaults; reflexivity.
Defined.

(** X6.  [handle_user_input] leaves the memory as it was and sends no
    request. *)
Theorem X6_handle_user_input_reads_only (text : option string) (r : Run) :
  memory (self (snd (handle_user_input text r))) = memory (self r) ∧
  sent (snd (handle_user_input text r)) = sent r.
Proof.
  destruct (handle_user_input_footprint text r) as [Hm _ (reqs & Hs & ->%Forall_False) _].
  split; [|by rewrite Hs, app_nil_r].
  apply map_eq. intros k. apply Hm. tauto.
Qed.

(** X7.  [provide_followup_answers] removes no key of the memory and only
    appends to the log, whatever the answers and the world, also when it
    raises. *)
Theorem X7_followup_answers_keep_keys
    (w : World) (answers : list (string * pyval)) (r : Run) :
  let r' := snd (provide_followup_answers w answers r) in
  dom (memory (self r)) ⊆ dom (memory (self r')) ∧
  ∃ evs, logs (self r') = (logs (self r) ++ evs)%list.
Proof.
  destruct (provide_followup_answers_footprint w answers r) as [_ Hd _ (evs & Hl & _)].
  split; [done|]. by exists evs.
Qed.

(** X4.  The area decides nothing but the amounts: the crop, the reason,
    the confidence and the kinds of cost that [crop_recommendation_tool]
    returns are the same for every area; the confidence is one of three
    words, and seeds are always among the costs. *)
Theorem X4_decision_ignores_area (i : inputs) (area : float) :
  let rec := crop_recommendation_tool i in
  let rec2 := crop_recommendation_tool (with_area area i) in
  crop rec2 = crop rec ∧ reason rec2 = reason rec ∧ confidence rec2 = confidence rec ∧
  map fst (estimated_costs rec2) = map fst (estimated_costs rec) ∧
  confidence rec ∈ ["low"; "medium"; "high"] ∧
  (map fst (estimated_costs rec) = ["seeds"] ∨
   map fst (estimated_costs rec) = ["seeds"; "fertilizers"]).
Proof.
  unfold crop_recommendation_tool, with_area. cbn [in_soil_type in_ph in_moisture in_area_acres].
  repeat match goal with
         | |- context [if ?b then _ else _] =>
             lazymatch b with
             | context [if _ then _ else _] => fail
             | _ => destruct b
             end
         end;
    cbn [crop reason confidence estimated_costs map fst];
    rewrite ?elem_of_cons; auto 10.
Qed.

(** X5.  When the location in memory after the answers are stored reads as
    two numbers and there is an API key, [provide_followup_answers] takes
    the coordinate path: the first request it sends creates the polygon
    around that point, the fetch is logged, and the polygon identifier in
    memory is left as it was. *)
Theorem X5_coordinate_location_fetches
    (w : World) (answers : list (string * pyval)) (r : Run) (loc : string) (lat lon : float) :
  let r1 := snd (store_answers answers r) in
  let r2 := snd (provide_followup_answers w answers r) in
  memory (self r1) !! "location" = Some (PStr loc) ->
  Str.contains "," loc = true ->
  coordinates_of loc = inr (lat, lon) ->
  String.eqb (_get_api_key w) "" = false ->
  (∃ reqs, sent r2 = (sent r ++ square_request w lat lon :: reqs)%list) ∧
  (∃ evs fetched evs2,
      logs (self r2) = (logs (self r1) ++ evs ++ EvAgroFetched fetched :: evs2)%list ∧
      Forall other_event evs2) ∧
  memory (self r2) !! "polyid" = memory (self r1) !! "polyid".
Proof.
  intros r1 r2 Hloc Hc Hco Hk.
  destruct (coordinate_location_run w r1 loc lat lon Hloc Hc Hco Hk)
    as (Hp & (reqs & Hs) & (evs & fetched & Hl)).
  destruct (after_location_footprint w answers r)
    as [Hm _ (reqs2 & Hs2 & _) (evs2 & Hl2 & He2)].
  fold r1 r2 in Hm, Hs2, Hl2. split; [|split].
  - exists (reqs ++ reqs2)%list. rewrite Hs2, Hs. unfold r1. rewrite store_answers_sent.
    by rewrite <- app_assoc.
  - exists evs, fetched, evs2. split; [|done]. rewrite Hl2, Hl.
    by rewrite <- !app_assoc.
  - by rewrite (Hm _ not_enrichment_key_polyid).
Qed.

(** X5 at the location answer [12.9716,77.5946], with a server that
    answers. *)
Lemma X5_point_is_fetched :
  coordinates_of "12.9716,77.5946" = inr (12.9716%float, 77.5946%float) ∧
  String.eqb (_get_api_key station) "" = false ∧
  ∃ reqs,
    sent (snd (provide_followup_answers station point_answer (start new_agent)))
      = (sent (start new_agent) ++ square_request station 12.9716 77.5946 :: reqs)%list.
Proof.
  split; [by vm_compute|]. split; [reflexivity|].
  apply (X5_coordinate_location_fetches station point_answer (start new_agent)
           "12.9716,77.5946" 12.9716 77.5946);
    [by vm_compute | reflexivity | by vm_compute | reflexivity].
Defined.

(** X8.  For answers that are ASCII text, under questions that are ASCII
    text or the agent's own, and an area and a pH in memory that are ASCII
    text if they are text, [provide_followup_answers]
    raises exactly when the area or the pH in memory, once the answers
    are stored, does not convert to a float, and it raises the exception
    of that conversion; otherwise it returns the final result for those
    two numbers.  The defaults 1 and 6.5 stand in for absent keys only. *)
Theorem X8_raise_condition (w : World) (answers : list (string * pyval)) (r : Run) :
  plain_answers answers = true ->
  Val.is_ascii (default PNone (memory (self r) !! "area_acres")) = true ->
  Val.is_ascii (default PNone (memory (self r) !! "ph")) = true ->
  match numbers_of_memory (with_answers answers (memory (self r))) with
  | inl e => fst (provide_followup_answers w answers r) = Raise e
  | inr (area, ph) =>
      ∃ i l, fst (provide_followup_answers w answers r) = Ret (Final (final_of_inputs i) l)
             ∧ in_area_acres i = area ∧ in_ph i = ph
  end.
Proof. intros _ _ _. rewrite <- store_answers_memory. apply raises_by_numbers. Qed.

(** X8 at an area that is no number and at one that is, on a new agent. *)
Lemma X8_area_decides :
  plain_answers [(q_area_acres, PStr "abc")] = true ∧
  plain_answers [(q_area_acres, PStr " 2.5 ")] = true ∧
  fst (provide_followup_answers offline [(q_area_acres, PStr "abc")] (start new_agent))
    = Raise ValueError ∧
  ∃ i l,
    fst (provide_followup_answers offline [(q_area_acres, PStr " 2.5 ")] (start new_agent))
      = Ret (Final (final_of_inputs i) l)
    ∧ in_area_acres i = 2.5%float ∧ in_ph i = 6.5%float.
Proof.
  split; [reflexivity|]. split; [reflexivity|]. split.
  - exact (X8_raise_condition offline [(q_area_acres, PStr "abc")] (start new_agent)
             eq_refl eq_refl eq_refl).
  - exact (X8_raise_condition offline [(q_area_acres, PStr " 2.5 ")] (start new_agent)
             eq_refl eq_refl eq_refl).
Defined.

(** X9.  Without an API key [provide_followup_answers] sends no request,
    and after the answers are stored it writes no key of the memory but
    [polyid]. *)
Theorem X9_no_key_no_request (w : World) (answers : list (string * pyval)) (r : Run) :
  _get_api_key w = "" ->
  let r1 := snd (store_answers answers r) in
  let r2 := snd (provide_followup_answers w answers r) in
  sent r2 = sent r ∧
  (∀ k, k = "polyid" ∨ memory (self r2) !! k = memory (self r1) !! k).
Proof.
  intros Hk r1 r2.
  assert (Hfp : footprint polyid_key no_request anything r1 r2).
  { unfold r2, provide_followup_answers, merge_answers.
    rewrite (bind_unit (bind _ _)) by apply total_merge_answers.
    rewrite (bind_unit (store_answers _)) by apply total_store_answers. fold r1.
    etrans; [apply (merge_without_key_footprint w Hk)|].
    apply (changes_weaken (fun _ => False) _ no_request _ other_event); [done|done|done|].
    apply recompute_final_footprint. }
  destruct Hfp as [Hm _ (reqs & Hs & ->%Forall_False) _]. split.
  - rewrite Hs, app_nil_r. apply store_answers_sent.
  - intros k. destruct (decide (k = "polyid")); [by left|right]. by apply Hm.
Qed.

(** X9 at a point as the location answer, in the world without a key. *)
Lemma X9_offline_sends_nothing :
  _get_api_key offline = "" ∧
  sent (snd (provide_followup_answers offline point_answer (start new_agent)))
    = sent (start new_agent).
Proof.
  split; [reflexivity|].
  apply (X9_no_key_no_request offline point_answer (start new_agent)). reflexivity.
Defined.

(** X10.  When the location in memory after the answers are stored is
    ASCII text with a comma that does not read as two numbers,
    [provide_followup_answers] logs the bad location with the exception
    and goes on: no polygon is created, the only requests are fetches for
    a polygon identifier already in memory, and the memory changes at
    most at the five keys of the enrichment.  The answers of the call are
    ASCII text, under questions that are ASCII text or the agent's own. *)
Theorem X10_bad_location_is_logged
    (w : World) (answers : list (string * pyval)) (r : Run) (loc : string) (e : exn) :
  let r1 := snd (store_answers answers r) in
  let r2 := snd (provide_followup_answers w answers r) in
  plain_answers answers = true ->
  memory (self r1) !! "location" = Some (PStr loc) ->
  Str.is_ascii loc = true ->
  Str.contains "," loc = true ->
  coordinates_of loc = inl e ->
  (∃ evs, logs (self r2) = (logs (self r1) ++ EvBadLocation loc e :: evs)%list ∧
          Forall other_event evs) ∧
  (∃ reqs, sent r2 = (sent r ++ reqs)%list ∧ Forall fetch_request reqs) ∧
  (∀ k, enrichment_key k ∨ memory (self r2) !! k = memory (self r1) !! k).
Proof.
  intros r1 r2 _ Hloc _ Hc He.
  pose proof (after_location_footprint w answers r) as Hfp. fold r1 r2 in Hfp.
  rewrite (bad_location_run w r1 loc e Hloc Hc He) in Hfp. cbn [snd] in Hfp.
  destruct Hfp as [Hm _ (reqs & Hs & Hq) (evs & Hl & Hev)].
  cbn [logged self memory logs sent] in Hm, Hs, Hl. split; [|split].
  - exists evs. split; [|done]. by rewrite Hl, <- app_assoc.
  - exists reqs. split; [|done]. rewrite Hs. unfold r1. by rewrite store_answers_sent.
  - intros k. destruct (decide (k ∈ ["soil_moisture"; "soil_temp_k"; "agro_precip";
                                      "agro_temp_k"; "agro_weather_ts"])) as [Hk|Hk];
      [by left|right]. by apply Hm.
Qed.

(** X10 at the location answer [north,field]. *)
Lemma X10_words_are_no_coordinates :
  plain_answers words_answer = true ∧
  Str.is_ascii "north,field" = true ∧
  coordinates_of "north,field" = inl ValueError ∧
  ∃ evs,
    logs (self (snd (provide_followup_answers offline words_answer (start new_agent))))
      = (logs (self (snd (store_answers words_answer (start new_agent))))
           ++ EvBadLocation "north,field" ValueError :: evs)%list
    ∧ Forall other_event evs.
Proof.
  split; [reflexivity|]. split; [reflexivity|]. split; [by vm_compute|].
  apply (X10_bad_location_is_logged offline words_answer (start new_agent)
           "north,field" ValueError);
    [reflexivity | by vm_compute | reflexivity | reflexivity | by vm_compute].
Defined.

(** X11.  Every answer is kept: for answers that are ASCII text, under
    questions that are ASCII text or the agent's own, the answer to a
    question is in memory after
    [provide_followup_answers], normalized, under the field of the
    question or the key made from its text, unless a later answer of the
    same call goes to the same key, or the key is [polyid] or one the
    polygon calls write. *)
Theorem X11_answers_are_stored
    (w : World) (answers more : list (string * pyval)) (q : string) (a : pyval) (r : Run) :
  plain_answers (answers ++ (q, a) :: more) = true ->
  (∀ qa, qa ∈ more -> field_of_question (fst qa) <> field_of_question q) ->
  ¬ merge_key (field_of_question q) ->
  memory (self (snd (provide_followup_answers w (answers ++ (q, a) :: more) r)))
    !! field_of_question q
    = Some (_parse_answer_for_field (field_of_question q) a).
Proof.
  intros _ Hmore Hkey.
  destruct (after_answers_footprint w (answers ++ (q, a) :: more) r) as [Hm _ _ _].
  rewrite (Hm _ Hkey), store_answers_memory. by apply with_answers_last.
Qed.

(** X11 at the answers to the pH and the moisture questions. *)
Lemma X11_ph_answer_is_stored :
  plain_answers ph_then_moisture = true ∧
  field_of_question q_ph = "ph" ∧
  memory (self (snd (provide_followup_answers offline ph_then_moisture (start new_agent))))
    !! "ph" = Some (PFloat 6.8).
Proof.
  split; [reflexivity|]. split; [reflexivity|].
  apply (X11_answers_are_stored offline [] [(q_moisture, PStr "High")] q_ph (PStr "6.8")
           (start new_agent)).
  - reflexivity.
  - intros qa ->%list_elem_of_singleton. vm_compute. discriminate.
  - apply not_merge_key_ph.
Defined.

(** X12.  Answers to the questions the agent asks never fill
    [crop_recommendation]: after [provide_followup_answers] with answers
    to questions of a follow-up, the key is still absent and
    [handle_user_input] asks for it again. *)
Theorem X12_own_questions_never_suffice
    (w : World) (text text2 : option string) (answers : list (string * pyval)) (r : Run) :
  memory (self r) !! "crop_recommendation" = None ->
  Forall (fun qa => fst qa ∈ identify_missing_fields (simple_planner text) (memory (self r)))
    answers ->
  let r2 := snd (provide_followup_answers w answers r) in
  memory (self r2) !! "crop_recommendation" = None ∧
  ∃ qs l, fst (handle_user_input text2 r2) = Ret (Followup qs l) ∧ q_crop_recommendation ∈ qs.
Proof.
  intros Hm Hq r2. rewrite Forall_forall in Hq.
  assert (Hkeep : memory (self r2) !! "crop_recommendation" = None).
  { set (K := fun k : string => k <> "crop_recommendation").
    assert (Hfp : footprint K anything anything r r2).
    { etrans.
      - apply (footprint_weaken K K no_request anything anything anything); [done..|].
        apply store_answers_fields_footprint. intros qa Hqa.
        eapply planner_question_field, planner_question, Hq, Hqa.
      - apply (footprint_weaken merge_key K anything anything anything anything); [|done..|].
        + unfold K, merge_key, gateway_key, enrichment_key. intros k Hk ->.
          revert Hk. rewrite ?elem_of_cons, ?elem_of_nil. intuition discriminate.
        + apply after_answers_footprint. }
    destruct Hfp as [Hmem _ _ _]. rewrite Hmem; [done|]. unfold K. tauto. }
  split; [done|]. by apply followup_when_unknown.
Qed.

(** X12 at the five answers on a new agent. *)
Lemma X12_five_answers_do_not_suffice :
  memory (self (start new_agent)) !! "crop_recommendation" = None ∧
  memory (self (snd (provide_followup_answers offline five_answers (start new_agent))))
    !! "crop_recommendation" = None.
Proof.
  split; [reflexivity|].
  apply (X12_own_questions_never_suffice offline None None five_answers (start new_agent));
    [reflexivity|].
  repeat constructor.
Defined.

(** X13.  Answering never brings a question back: every question the
    resolver has for a plan after [provide_followup_answers] is one it had
    before. *)
Theorem X13_questions_never_come_back
    (w : World) (plan : list step) (answers : list (string * pyval)) (r : Run) :
  Forall
    (fun q => q ∈ identify_missing_fields plan (memory (self r)))
    (identify_missing_fields plan
       (memory (self (snd (provide_followup_answers w answers r))))).
Proof.
  apply Forall_forall. intros q.
  intros (m & -> & Hm & _)%dedupe_elem. apply dedupe_elem. exists m.
  split; [done|]. split; [|apply not_elem_of_empty].
  unfold missing_fields in *.
  apply list_elem_of_In, in_flat_map in Hm as (st & Hst & Hm).
  apply list_elem_of_In, list_elem_of_fmap in Hm as (F & -> & HF).
  apply list_elem_of_filter in HF as [Hnone HF].
  apply list_elem_of_In, in_flat_map. exists st. split; [done|].
  apply list_elem_of_In, list_elem_of_fmap. exists F. split; [done|].
  apply list_elem_of_filter. split; [|done].
  destruct (provide_followup_answers_footprint w answers r) as [_ Hd _ _].
  apply not_elem_of_dom. intros Hin. apply Hd in Hin.
  by apply not_elem_of_dom in Hnone.
Qed.

(** X14.  The text of the user decides nothing but the order of the
    questions: for two texts, [handle_user_input] on the same state
    returns follow-ups with the same questions in some order, or the same
    final result, or raises the same exception. *)
Theorem X14_text_only_orders_questions (t1 t2 : option string) (r : Run) :
  match fst (handle_user_input t1 r), fst (handle_user_input t2 r) with
  | Ret (Followup q1 _), Ret (Followup q2 _) => q1 ≡ₚ q2
  | Ret (Final f1 _), Ret (Final f2 _) => f1 = f2
  | Raise e1, Raise e2 => e1 = e2
  | _, _ => False
  end.
Proof.
  pose proof (questions_permute t1 t2 (memory (self r))) as Hp.
  pose proof (handle_user_input_result t1 r) as H1.
  pose proof (handle_user_input_result t2 r) as H2.
  destruct (identify_missing_fields (simple_planner t1) (memory (self r))) as [|a l1] eqn:E1.
  - apply Permutation.Permutation_nil in Hp. rewrite Hp in H2.
    unfold finalized in H1, H2. destruct (inputs_of_memory _); cbn [outcome_of sum_map] in H1, H2;
    destruct (fst (handle_user_input t1 r)) as [[]|], (fst (handle_user_input t2 r)) as [[]|];
      simplify_eq/=; done.
  - destruct (identify_missing_fields (simple_planner t2) (memory (self r))) as [|b l2] eqn:E2.
    { symmetry in Hp. by apply Permutation.Permutation_nil in Hp. }
    destruct (handle_user_input_questions t1 r) as [x1 Hx1]; [by rewrite E1|].
    destruct (handle_user_input_questions t2 r) as [x2 Hx2]; [by rewrite E2|].
    rewrite Hx1, Hx2, E1, E2. done.
Qed.

(** X15.  The soil fetch, the weather fetch, the deletion of a polygon and
    the fetch for a point never raise, whatever the server replies. *)
Theorem X15_gateway_never_raises
    (w : World) (polyid : pyval) (lat lon : float) (cleanup : bool) :
  total (get_soil_by_polyid w polyid) ∧
  total (get_weather_by_polyid w polyid) ∧
  total (delete_polygon_by_id w polyid) ∧
  total (fetch_agro_for_location w lat lon cleanup).
Proof.
  auto using total_get_soil, total_get_weather, total_delete_polygon, total_fetch_agro.
Qed.

(** X16.  [create_polygon_from_geojson] raises exactly when there is an
    API key, the argument is a feature collection whose [features] is
    true, and its first element cannot be taken; then nothing is sent,
    logged or stored. *)
Theorem X16_create_polygon_raises
    (w : World) (geojson : pyval) (name : option string) (r : Run) (e : exn) :
  (fst (create_polygon_from_geojson w geojson name r) = Raise e ↔
   String.eqb (_get_api_key w) "" = false ∧ has_type "FeatureCollection" geojson = true ∧
   truthy (features_of geojson) = true ∧ fst (index0 (features_of geojson) r) = Raise e) ∧
  (fst (create_polygon_from_geojson w geojson name r) = Raise e ->
   snd (create_polygon_from_geojson w geojson name r) = r).
Proof.
  unfold create_polygon_from_geojson. fold (features_of geojson).
  destruct (String.eqb (_get_api_key w) "").
  { split; [split|]; [done|intros [? _]; done|done]. }
  destruct (has_type "FeatureCollection" geojson).
  - destruct (truthy (features_of geojson)); cbn [negb].
    + assert (Hi : (∃ x, index0 (features_of geojson) r = (Ret x, r)) ∨
                   (∃ e', index0 (features_of geojson) r = (Raise e', r))).
      { unfold index0. destruct (features_of geojson) as [| | | |[]|[]|]; eauto. }
      destruct Hi as [[x Hx]|[e' He']].
      * rewrite (bind_run _ _ _ _ _ Hx), Hx.
        destruct (total_post_polygon w x name r) as [v Hv]. rewrite Hv.
        split; [split|]; [done|intros (_ & _ & _ & ?); done|done].
      * unfold bind. rewrite He'. cbn [fst snd]. split; [split|]; [|tauto|done].
        intros ->. done.
    + split; [split|]; [done|intros (_ & _ & ? & _); done|done].
  - assert (Hv : ∃ v, fst ((if has_type "Feature" geojson
                            then post_polygon w geojson name
                            else post_polygon w (feature_of geojson) name) r) = Ret v).
    { destruct (has_type "Feature" geojson); apply total_post_polygon. }
    destruct Hv as [v Hv]. rewrite Hv.
    split; [split|]; [done|intros (_ & ? & _); done|done].
Qed.

(** X17.  [delete_polygon_by_id] always returns.  It returns [True] only
    for a deletion the server confirmed: then that one request was sent,
    no saved polygon has the identifier any more, the polygons with
    another identifier are all kept and the rest of the memory is as
    before.  When it returns [False] the memory is as before. *)
Theorem X17_delete_polygon_report (w : World) (polyid : pyval) (r : Run) :
  let r2 := snd (delete_polygon_by_id w polyid r) in
  ∃ deleted, fst (delete_polygon_by_id w polyid r) = Ret deleted ∧
    if deleted then
      (∃ body, respond w (sent r) (DeletePolygon polyid) = Response true body) ∧
      sent r2 = (sent r ++ [DeletePolygon polyid])%list ∧
      (∀ k, k <> "polygons" -> memory (self r2) !! k = memory (self r) !! k) ∧
      match memory (self r) !! "polygons" with
      | Some (PDict ps) =>
          ∃ ps2, memory (self r2) !! "polygons" = Some (PDict ps2) ∧
                 ∀ kv, kv ∈ ps2 ↔ kv ∈ ps ∧ py_eq (snd kv) polyid = false
      | Some _ => False
      | None => memory (self r2) !! "polygons" = None
      end
    else memory (self r2) = memory (self r).
Proof.
  unfold delete_polygon_by_id.
  destruct (String.eqb (_get_api_key w) "" || negb (truthy polyid)).
  { by exists false. }
  unfold send, json_of, get_memory, store, log, on_agent, http, try_except, bind, ret, raise.
  cbv beta.
  destruct (respond w (sent r) (DeletePolygon polyid)) as [|[] body] eqn:Hr;
    cbn [fst snd self memory sent logs]; try by exists false.
  destruct (memory (self r) !! "polygons") as [[]|] eqn:Hp;
    cbn [fst snd self memory sent logs]; try by exists false.
  - exists true. split; [done|]. split; [eauto|]. split; [done|]. split.
    + intros k Hk. by apply lookup_insert_ne.
    + eexists. split; [apply lookup_insert_eq|].
      intros kv. rewrite !list_elem_of_In, filter_In, negb_true_iff. tauto.
  - exists true. split; [done|]. split; [eauto|]. split; [done|]. split; done.
Qed.

(** X18.  The decision does not depend on the case of the soil type and of
    the moisture. *)
Theorem X18_decision_ignores_case (i : inputs) :
  crop_recommendation_tool (lowered i) = crop_recommendation_tool i.
Proof.
  unfold crop_recommendation_tool, lowered.
  cbn [in_area_acres in_soil_type in_ph in_moisture].
  rewrite lower_idem, lower_empty.
  destruct (String.eqb (in_moisture i) ""); [done|]. by rewrite lower_idem.
Qed.

(** X19.  [_parse_answer_for_field] returns [None] for the answer [None],
    and a number or a text for every other answer and every field: a list,
    a mapping or a truth value is never stored as it is. *)
Theorem X19_parsed_answer_is_scalar (field : string) (answer : pyval) :
  _parse_answer_for_field field answer = PNone ∧ answer = PNone ∨
  scalar (_parse_answer_for_field field answer) = true.
Proof.
  unfold _parse_answer_for_field.
  assert (H : scalar
    (match
       (if String.eqb field "area_acres" then float_or_none (py_float answer)
        else if String.eqb field "ph" then float_or_none (py_float answer)
        else if String.eqb field "moisture"
             then Some (PStr (Str.lower (Str.strip (py_str answer))))
        else if String.eqb field "soil_type"
             then Some (PStr (Str.lower (Str.strip (py_str answer))))
        else if String.eqb field "location" then Some (PStr (Str.strip (py_str answer)))
        else None)
     with
     | Some v => v
     | None =>
         let s := Str.strip (py_str answer) in
         let number :=
           if Str.contains "." s then PFloat <$> Num.float_of_str s
           else PInt <$> Num.int_of_str s in
         default (PStr s) number
     end) = true).
  { assert (Hf : ∀ x, match float_or_none x with Some v => scalar v = true | None => True end)
      by (by intros [|]).
    assert (Hn : scalar
      (let s := Str.strip (py_str answer) in
       let number :=
         if Str.contains "." s then PFloat <$> Num.float_of_str s
         else PInt <$> Num.int_of_str s in
       default (PStr s) number) = true).
    { cbv zeta. destruct (Str.contains "." _);
        [destruct (Num.float_of_str _)|destruct (Num.int_of_str _)]; done. }
    repeat match goal with
           | |- context [String.eqb field ?k] => destruct (String.eqb field k)
           end; try done;
      try (specialize (Hf (py_float answer)); destruct (float_or_none (py_float answer)); done). }
  destruct answer; [by left|by right..].
Qed.

(** X20.  A key made from a question text has no space, no bracket, no
    slash and no comma. *)
Theorem X20_safe_key_characters (question_text : string) :
  Forall (fun c => ¬ In c unsafe_characters)
    (list_ascii_of_string (_safe_key_from_question question_text)).
Proof.
  apply List.Forall_forall. intros c H. unfold _safe_key_from_question in H.
  apply replace_chars in H as [[]|[H Hcomma]].
  apply replace_chars in H as [H|[H Hslash]].
  { cbn in H. intros Hc. cbn in Hc. intuition (subst; discriminate). }
  apply replace_chars in H as [[]|[H Hclose]].
  apply replace_chars in H as [[]|[H Hopen]].
  apply replace_chars in H as [H|[H Hspace]].
  { cbn in H. intros Hc. cbn in Hc. intuition (subst; discriminate). }
  cbn. intuition congruence.
Qed.

(** X21.  The page finds nothing to remove from the questions of the
    agent: [dedupe_questions] returns the follow-up list of
    [handle_user_input] as it is, for every text and memory. *)
Theorem X21_page_keeps_questions (text : option string) (mem : gmap string pyval) :
  Frontend.dedupe_questions (identify_missing_fields (simple_planner text) mem)
    = identify_missing_fields (simple_planner text) mem.
Proof. apply dedupe_questions_planner. Qed.

(** X22.  The answers of the page always finalize.  When the agent asked
    with a memory that had neither area nor pH, and the page can list the
    saved polygons, [ask_followups] returns one answer per question, in
    order, and [provide_followup_answers] on them returns a final result,
    from any state and in any world, for the area and the pH entered in
    the two number fields. *)
Theorem X22_page_answers_finalize
    (w : World) (h : Frontend.Host) (text : option string)
    (asked shown : gmap string pyval) (r : Run) :
  asked !! "area_acres" = None -> asked !! "ph" = None -> listable shown ->
  let questions := identify_missing_fields (simple_planner text) asked in
  ∃ responses i l n_area n_ph,
    Frontend.ask_followups h shown questions = inr responses ∧
    map fst responses = questions ∧
    questions !! n_area = Some q_area_acres ∧ questions !! n_ph = Some q_ph ∧
    fst (provide_followup_answers w responses r) = Ret (Final (final_of_inputs i) l) ∧
    in_area_acres i = Frontend.number_input h (Frontend._stable_key h q_area_acres n_area) ∧
    in_ph i = Frontend.number_input h (Frontend._stable_key h q_ph n_ph).
Proof.
  intros Harea Hph Hshown questions.
  assert (Hnd : NoDup questions) by apply dedupe_NoDup.
  destruct (ask_from_runs h shown questions 0 []) as [responses Hrun].
  { intros. by apply ask_runs. }
  destruct (ask_from_inv h shown questions 0 [] responses Hnd) as (tail & -> & Hk & Ht);
    [intros ? _; apply not_elem_of_nil|done|].
  cbn [app] in *.
  assert (Hqa : q_area_acres ∈ questions).
  { apply question_asked. exists "area_acres". unfold required_fields.
    rewrite !elem_of_cons. auto. }
  assert (Hqp : q_ph ∈ questions).
  { apply question_asked. exists "ph". unfold required_fields.
    rewrite !elem_of_cons. auto 10. }
  apply list_elem_of_lookup in Hqa as [n_area Hna], Hqp as [n_ph Hnp].
  assert (Hva : (q_area_acres,
                 PFloat (Frontend.number_input h (Frontend._stable_key h q_area_acres n_area)))
                ∈ tail).
  { pose proof Hna as Hl. rewrite <- Hk, list_lookup_fmap in Hl.
    destruct (tail !! n_area) as [[q v]|] eqn:Hj; simplify_eq/=.
    apply Ht in Hj as Hask. cbn in Hask. unfold Frontend.ask in Hask.
    change (Str.contains "area" (Str.lower q_area_acres)) with true in Hask.
    simplify_eq/=. by eapply list_elem_of_lookup_2. }
  assert (Hvp : (q_ph, PFloat (Frontend.number_input h (Frontend._stable_key h q_ph n_ph)))
                ∈ tail).
  { pose proof Hnp as Hl. rewrite <- Hk, list_lookup_fmap in Hl.
    destruct (tail !! n_ph) as [[q v]|] eqn:Hj; simplify_eq/=.
    apply Ht in Hj as Hask. cbn in Hask. unfold Frontend.ask in Hask.
    change (Str.contains "area" (Str.lower q_ph)) with false in Hask.
    change (Str.contains "location" (Str.lower q_ph)) with false in Hask.
    change (Str.contains "lat" (Str.lower q_ph)) with false in Hask.
    change (Str.contains "ph" (Str.lower q_ph)) with true in Hask.
    simplify_eq/=. by eapply list_elem_of_lookup_2. }
  assert (Hplanner : ∀ qa, qa ∈ tail -> fst qa ∈ planner_questions).
  { intros qa Hqa. apply (planner_question text asked). fold questions. rewrite <- Hk.
    apply list_elem_of_fmap. eauto. }
  rewrite <- Hk in Hnd.
  pose proof (stored_once tail _ _ (memory (self r)) Hnd Hplanner Hva) as Hsa.
  pose proof (stored_once tail _ _ (memory (self r)) Hnd Hplanner Hvp) as Hsp.
  change (field_of_question q_area_acres) with "area_acres" in Hsa.
  change (field_of_question q_ph) with "ph" in Hsp.
  pose proof (raises_by_numbers w tail r) as Hrc.
  rewrite store_answers_memory in Hrc. unfold numbers_of_memory in Hrc.
  rewrite Hsa, Hsp in Hrc. cbn [default] in Hrc.
  change (_parse_answer_for_field "area_acres" (PFloat ?x)) with (PFloat x) in Hrc.
  change (_parse_answer_for_field "ph" (PFloat ?x)) with (PFloat x) in Hrc.
  cbn [py_float] in Hrc.
  destruct Hrc as (i & l & Hf & Hia & Hip).
  exists tail, i, l, n_area, n_ph.
  unfold Frontend.ask_followups. subst questions. rewrite dedupe_questions_planner, Hrun.
  done.
Qed.

(** X22 at a new agent and the visitor who enters 2 in every number
    field, in the world without a key. *)
Lemma X22_visitor_finalizes :
  (∅ : gmap string pyval) !! "area_acres" = None ∧
  (∅ : gmap string pyval) !! "ph" = None ∧
  ∃ responses i l n_area n_ph,
    Frontend.ask_followups visitor ∅ (identify_missing_fields (simple_planner None) ∅)
      = inr responses ∧
    map fst responses = identify_missing_fields (simple_planner None) ∅ ∧
    identify_missing_fields (simple_planner None) ∅ !! n_area = Some q_area_acres ∧
    identify_missing_fields (simple_planner None) ∅ !! n_ph = Some q_ph ∧
    fst (provide_followup_answers offline responses (start new_agent))
      = Ret (Final (final_of_inputs i) l) ∧
    in_area_acres i
      = Frontend.number_input visitor (Frontend._stable_key visitor q_area_acres n_area) ∧
    in_ph i = Frontend.number_input visitor (Frontend._stable_key visitor q_ph n_ph).
Proof.
  split; [reflexivity|]. split; [reflexivity|].
  apply (X22_page_answers_finalize offline visitor None ∅ ∅ (start new_agent));
    [reflexivity | reflexivity |].
  intros v Hv. rewrite lookup_empty in Hv. discriminate.
Defined.

(** X23.  Picking a saved polygon hands its identifier to the agent: for a
    location question, the option the page shows for a polygon reads back
    as the text of its identifier, whatever the name of the polygon, when
    that text has no arrow in it and no space around it. *)
Theorem X23_picked_polygon_is_answer
    (h : Frontend.Host) (mem : gmap string pyval) (i n : nat) (q : string)
    (ps : list (string * pyval)) (name : string) (pid : pyval) :
  Str.contains "area" (Str.lower q) = false ->
  Str.contains "location" (Str.lower q) = true ->
  mem !! "polygons" = Some (PDict ps) ->
  ps !! n = Some (name, pid) ->
  Frontend.selectbox h (Frontend._stable_key h q i ++ "_sel") = S n ->
  Str.contains "->" (py_str pid) = false ->
  Str.strip (py_str pid) = py_str pid ->
  Frontend.ask h mem i q = inr (PStr (py_str pid)).
Proof.
  intros Ha Hloc Hmem Hn Hsel Harrow Hstrip.
  unfold Frontend.ask. rewrite Ha, Hloc, Hmem. cbn [orb default id].
  assert (Ht : truthy (PDict ps) = true) by (destruct ps; [done|reflexivity]).
  rewrite Ht. unfold Frontend.selected. rewrite Hsel. cbn [lookup list_lookup].
  change (("(Use polygon)" :: ?l) !! S n) with (l !! n).
  match goal with |- context [map ?f ps !! n] =>
    replace (map f ps !! n) with (Some (f (name, pid)))
      by (symmetry; etrans; [apply (list_lookup_fmap f ps n)|by rewrite Hn])
  end.
  cbn [default fst snd id]. unfold id.
  set (sel := name ++ " -> " ++ py_str pid).
  assert (Hc : Str.contains "->" sel = true).
  { apply contains_app_r. reflexivity. }
  assert (Hne1 : String.eqb sel "" = false).
  { apply String.eqb_neq. intros E. by rewrite E in Hc. }
  assert (Hne2 : String.eqb sel "(Use polygon)" = false).
  { apply String.eqb_neq. intros E. by rewrite E in Hc. }
  rewrite Hne1, Hne2. cbn [negb andb].
  assert (Hsp : Str.contains "->" (" " ++ py_str pid) = false).
  { change (" " ++ py_str pid) with (String " " (py_str pid)).
    cbn [Str.contains]. by rewrite Harrow. }
  destruct (split_before_arrow (" " ++ py_str pid) (name ++ " ") Hsp 0%nat "") as [parts Hparts];
    [by left|].
  unfold Frontend.split_sep.
  replace sel with ((name ++ " ") ++ "->" ++ " " ++ py_str pid)
    by (unfold sel; by rewrite str_app_assoc).
  rewrite Hparts, last_last.
  etrans; [|by rewrite <- Hstrip]. reflexivity.
Qed.

(** X23 at the visitor, who picks the one saved polygon. *)
Lemma X23_visitor_picks_north :
  one_polygon !! "polygons" = Some (PDict [("north", PStr "poly42")]) ∧
  Frontend.ask visitor one_polygon 4 q_location = inr (PStr "poly42").
Proof.
  split; [reflexivity|].
  apply (X23_picked_polygon_is_answer visitor one_polygon 4 0 q_location
           [("north", PStr "poly42")] "north" (PStr "poly42")); reflexivity.
Defined.
